(** * Streaming-manifest parsers of yt_dlp/extractor/common.py

    A shallow embedding of the manifest parsers of [InfoExtractor]
    (HLS, DASH, Smooth Streaming, F4M and SMIL) and the properties of
    them that the specification states.

    Conventions of the embedding.
    - Python [str] is [string]; the documents are taken to be ASCII text.
    - A Python [dict] is an association list in insertion order, updated
      in place the way [dict.__setitem__] does it.
    - A call that can raise returns a [result]; the exception is named.
    - Helpers that live outside this file ([utils], the downloaders, the
      network) are Section variables of the component that calls them;
      the division of [utils.float_or_none], which a DASH timescale of
      zero makes fail, is written out. *)

From Stdlib Require Import List String Ascii ZArith QArith Bool Arith Lia.
From Stdlib Require Import DecimalString DecimalNat.
Import ListNotations.

Close Scope Q_scope.

Set Implicit Arguments.

(** ** Python values, strings and dictionaries *)

Module Py.

Local Open Scope string_scope.

(** Exceptions that the modelled code can raise.  [NotModelled] is not an
    exception of Python: it marks an input that the embedding does not
    cover. *)
Inductive exn : Type :=
| AssertionError
| AttributeError
| IndexError
| KeyError
| TypeError
| ValueError
| ZeroDivisionError
| NotModelled.

Inductive result (A : Type) : Type :=
| Ok (a : A)
| Raise (e : exn).

Arguments Ok {A} a.
Arguments Raise {A} e.

Definition bind {A B : Type} (r : result A) (k : A -> result B) : result B :=
  match r with
  | Ok a => k a
  | Raise e => Raise e
  end.

Notation "x <- r ;; k" := (bind r (fun x => k))
  (at level 61, r at next level, right associativity).

(** Scalar values held by a format dictionary.  A finite [float] is
    carried by the rational it denotes. *)
Inductive value : Type :=
| VNone
| VBool (b : bool)
| VInt (z : Z)
| VFloat (q : Q)
| VStr (s : string).

(** Python truthiness ([bool(v)]). *)
Definition truthy (v : value) : bool :=
  match v with
  | VNone => false
  | VBool b => b
  | VInt z => negb (z =? 0)%Z
  | VFloat q => negb (Qeq_bool q 0)
  | VStr s => negb (s =? "")
  end.

(** [a or b]. *)
Definition py_or (a b : value) : value := if truthy a then a else b.

Definition dict : Type := list (string * value).

(** [d.get(k)]: [None] of Python is [None] here when the key is absent;
    a present key bound to [None] gives [Some VNone]. *)
Fixpoint lookup (k : string) (d : dict) : option value :=
  match d with
  | [] => None
  | (k', v) :: d' => if k' =? k then Some v else lookup k d'
  end.

Definition dget (k : string) (d : dict) : value :=
  match lookup k d with
  | Some v => v
  | None => VNone
  end.

Definition mem (k : string) (d : dict) : bool :=
  match lookup k d with
  | Some _ => true
  | None => false
  end.

(** [d[k] = v]: an existing key keeps its position, a new one goes last. *)
Fixpoint setitem (k : string) (v : value) (d : dict) : dict :=
  match d with
  | [] => [(k, v)]
  | (k', v') :: d' =>
      if k' =? k then (k', v) :: d' else (k', v') :: setitem k v d'
  end.

(** [d.update(e)]. *)
Definition update (d e : dict) : dict :=
  fold_left (fun acc kv => setitem (fst kv) (snd kv) acc) e d.

(** [del d[k]] for a key that is present. *)
Fixpoint delitem (k : string) (d : dict) : dict :=
  match d with
  | [] => []
  | (k', v') :: d' => if k' =? k then d' else (k', v') :: delitem k d'
  end.

(** A dict display [{k1: v1, ...}]: later duplicates overwrite. *)
Definition mkdict (items : list (string * value)) : dict := update [] items.

Definition opt_str (o : option string) : value :=
  match o with
  | Some s => VStr s
  | None => VNone
  end.

Definition opt_int (o : option Z) : value :=
  match o with
  | Some z => VInt z
  | None => VNone
  end.

(** *** Equality of values

    Python compares numbers by value whatever their type
    ([True == 1 == 1.0]), so a number is compared as its reduced
    fraction.  [hkey] is a value up to [==], and a tuple of values up to
    [==] is a list of them. *)
Inductive hkey : Type :=
| KNone
| KNum (num : Z) (den : positive)
| KStr (s : string).

Definition key_of_value (v : value) : hkey :=
  match v with
  | VNone => KNone
  | VBool b => KNum (if b then 1 else 0) 1
  | VInt z => KNum z 1
  | VFloat q => KNum (Qnum (Qred q)) (Qden (Qred q))
  | VStr s => KStr s
  end.

Definition hkey_eqb (a b : hkey) : bool :=
  match a, b with
  | KNone, KNone => true
  | KNum n1 d1, KNum n2 d2 => (n1 =? n2)%Z && (d1 =? d2)%positive
  | KStr s1, KStr s2 => s1 =? s2
  | _, _ => false
  end.

Fixpoint key_eqb (a b : list hkey) : bool :=
  match a, b with
  | [], [] => true
  | x :: a', y :: b' => hkey_eqb x y && key_eqb a' b'
  | _, _ => false
  end.

(** [a == b]. *)
Definition py_eqb (a b : value) : bool :=
  hkey_eqb (key_of_value a) (key_of_value b).

(** *** Attribute maps and dictionaries of lists *)

(** The attributes of an XML element or of a playlist tag: names and
    texts. *)
Definition attrib : Type := list (string * string).

Fixpoint aget (k : string) (a : attrib) : option string :=
  match a with
  | [] => None
  | (k', v) :: a' => if k' =? k then Some v else aget k a'
  end.

(** Truthiness of [a.get(k)]: present and not empty. *)
Definition nonempty (o : option string) : bool :=
  match o with
  | Some s => negb (s =? "")
  | None => false
  end.

(** [a or b] on optional strings. *)
Definition or_else (a b : option string) : option string :=
  if nonempty a then a else b.

(** [d.setdefault(k, []).append(x)] on a dict of lists. *)
Fixpoint setdefault_append {A : Type} (k : string) (x : A)
    (d : list (string * list A)) : list (string * list A) :=
  match d with
  | [] => [(k, [x])]
  | (k', l) :: d' =>
      if k' =? k then (k', app l [x]) :: d'
      else (k', l) :: setdefault_append k x d'
  end.

Fixpoint lget {A : Type} (k : string) (d : list (string * list A))
  : option (list A) :=
  match d with
  | [] => None
  | (k', l) :: d' => if k' =? k then Some l else lget k d'
  end.

(** *** Strings *)

(** [s.startswith(p)]. *)
Definition startswith (p s : string) : bool := prefix p s.

(** [needle in hay]. *)
Fixpoint contains (needle hay : string) : bool :=
  if prefix needle hay then true
  else match hay with
       | EmptyString => false
       | String _ rest => contains needle rest
       end.

(** [c in s] for a single character. *)
Fixpoint has_char (c : ascii) (s : string) : bool :=
  match s with
  | EmptyString => false
  | String a rest => if Ascii.eqb a c then true else has_char c rest
  end.

(** [s.split(c)[0]]: the text before the first [c], or all of [s]. *)
Fixpoint before_first (c : ascii) (s : string) : string :=
  match s with
  | EmptyString => EmptyString
  | String a rest =>
      if Ascii.eqb a c then EmptyString else String a (before_first c rest)
  end.

(** [str.isspace] on one ASCII character: TAB, LF, VT, FF, CR,
    FS, GS, RS, US and SPACE. *)
Definition isspace (c : ascii) : bool :=
  let n := nat_of_ascii c in
  (Nat.leb 9 n && Nat.leb n 13) || (Nat.leb 28 n && Nat.leb n 32).

Fixpoint lstrip (s : string) : string :=
  match s with
  | EmptyString => EmptyString
  | String a rest => if isspace a then lstrip rest else s
  end.

(** Drop trailing white space: a character is kept when it is not white
    space or when something is kept after it. *)
Fixpoint rstrip (s : string) : string :=
  match s with
  | EmptyString => EmptyString
  | String a rest =>
      match rstrip rest with
      | EmptyString => if isspace a then EmptyString else String a EmptyString
      | kept => String a kept
      end
  end.

(** [s.strip()]. *)
Definition strip (s : string) : string := rstrip (lstrip s).

(** [s.replace(old, new)] for a non-empty [old]: leftmost occurrences,
    not overlapping.  [skip] counts the characters of a matched [old]
    still to be dropped. *)
Fixpoint replace_from (old new : string) (skip : nat) (s : string) : string :=
  match s with
  | EmptyString => EmptyString
  | String a rest =>
      match skip with
      | S n => replace_from old new n rest
      | O =>
          if prefix old s
          then new ++ replace_from old new (Nat.pred (String.length old)) rest
          else String a (replace_from old new 0 rest)
      end
  end.

Definition replace (old new s : string) : string := replace_from old new 0 s.

(** ['/'.join(s.split('/')[:-1])]: the text before the last ['/'],
    empty when there is none. *)
Fixpoint before_last_slash (s : string) : string :=
  match s with
  | EmptyString => EmptyString
  | String a rest =>
      if has_char "/" rest then String a (before_last_slash rest)
      else EmptyString
  end.

(** [re.match(r'https?://', s)]. *)
Definition is_http_url (s : string) : bool :=
  startswith "http://" s || startswith "https://" s.

(** One-character line boundaries of [str.splitlines] in ASCII:
    LF, VT, FF, CR, FS, GS, RS. *)
Definition is_eol (c : ascii) : bool :=
  let n := nat_of_ascii c in
  (Nat.leb 10 n && Nat.leb n 13) || (Nat.leb 28 n && Nat.leb n 30).

(** [s.splitlines()], with CR LF one boundary.  [cur] is the line being
    read; a last line that is empty is not reported. *)
Fixpoint splitlines_from (cur : string) (s : string) : list string :=
  match s with
  | EmptyString => if cur =? "" then [] else [cur]
  | String c rest =>
      if is_eol c then
        cur :: (if Ascii.eqb c "013"
                then match rest with
                     | String "010" rest' => splitlines_from "" rest'
                     | _ => splitlines_from "" rest
                     end
                else splitlines_from "" rest)
      else splitlines_from (cur ++ String c EmptyString) rest
  end.

Definition splitlines (s : string) : list string := splitlines_from "" s.

(** [s[n:]]. *)
Fixpoint drop (n : nat) (s : string) : string :=
  match n, s with
  | S n', String _ rest => drop n' rest
  | _, _ => s
  end.

(** The text before the first [c] of [s], when there is one. *)
Fixpoint until_char (c : ascii) (s : string) : option string :=
  match s with
  | EmptyString => None
  | String a rest =>
      if Ascii.eqb a c then Some EmptyString
      else match until_char c rest with
           | Some t => Some (String a t)
           | None => None
           end
  end.

(** A loop whose body can raise. *)
Fixpoint foldM {A B : Type} (f : A -> B -> result A) (l : list B) (a : A)
  : result A :=
  match l with
  | [] => Ok a
  | b :: l' => a' <- f a b ;; foldM f l' a'
  end.

(** A comprehension whose element expression can raise. *)
Fixpoint mapM {A B : Type} (f : A -> result B) (l : list A)
  : result (list B) :=
  match l with
  | [] => Ok []
  | a :: l' => b <- f a ;; bs <- mapM f l' ;; Ok (b :: bs)
  end.

End Py.

(** ** F4M / HDS: [_parse_f4m_formats] *)

Module F4M.

Import Py.
Local Open Scope string_scope.

(** A [media] element of the manifest, with its attributes: [bitrate],
    [width] and [height] as [int_or_none] reads them, [href] and [url]. *)
Record MediaEl : Type := {
  bitrate : option Z;
  width : option Z;
  height : option Z;
  href : option string;
  url : option string
}.

(** What the parser reads of the manifest.  [pv_2_0] is the result of
    [manifest.find('{http://ns.adobe.com/f4m/1.0}pv-2.0')]: [None] when
    there is no such element, [Some t] with [t] its [.text] (itself
    [None] for an element without text). *)
Record Manifest : Type := {
  is_element : bool;
  pv_2_0 : option (option string);
  media_1_0 : list MediaEl;
  media_2_0 : list MediaEl;
  has_bootstrap_info : bool;
  mime_type : option string
}.

Section Parser.

(** [downloader.f4m.remove_encrypted_media], [downloader.f4m.get_base_url],
    [utils.determine_ext], [utils.join_nonempty], and the two extractors
    that fetch a nested manifest. *)
Variable remove_encrypted_media : list MediaEl -> list MediaEl.
Variable get_base_url : Manifest -> option string.
Variable determine_ext : string -> string.
Variable join_nonempty : list value -> string.
Variable _extract_f4m_formats : string -> list dict.
Variable _extract_m3u8_formats : string -> list dict.

(** The caller's options. *)
Variable preference quality : option Z.
Variable f4m_id : option string.
Variable fatal : bool.

(** The player-verification test: the text has a [';'] and the challenge
    before it is not blank. *)
Definition has_player_verification_challenge (text : string) : bool :=
  has_char ";" text && negb (strip (before_first ";" text) =? "").

(** [tbr or i]. *)
Definition tbr_or (tbr : option Z) (i : Z) : Z :=
  match tbr with
  | Some z => if (z =? 0)%Z then i else z
  | None => i
  end.

(** The update of the only format of a nested manifest from the parent
    media entry. *)
Definition inherit_from_parent
    (tbr w h : option Z) (format_id : string) (vcodec : value) (f : dict)
  : dict :=
  update f
    [ ("tbr", py_or (dget "tbr" f) (opt_int tbr));
      ("width", py_or (dget "width" f) (opt_int w));
      ("height", py_or (dget "height" f) (opt_int h));
      ("format_id",
        if truthy (opt_int tbr) then VStr format_id else dget "format_id" f);
      ("vcodec", vcodec) ].

(** One turn of [for i, media_el in enumerate(media_nodes)].  The state is
    the format list and the variable [manifest_url], which the loop
    assigns. *)
Definition media_step
    (version_2 : bool) (manifest_base_url : option string) (vcodec : value)
    (bootstrap : bool)
    (st : list dict * string) (im : Z * MediaEl) : list dict * string :=
  let '(formats, manifest_url) := st in
  let '(i, media_el) := im in
  let tbr := bitrate media_el in
  let format_id := join_nonempty [opt_str f4m_id; VInt (tbr_or tbr i)] in
  let terminal (manifest_url : string) : list dict * string :=
    (app formats
       [ mkdict
           [ ("format_id", VStr format_id);
             ("url", VStr manifest_url);
             ("manifest_url", VStr manifest_url);
             ("ext", if bootstrap then VStr "flv" else VNone);
             ("protocol", VStr "f4m");
             ("tbr", opt_int tbr);
             ("width", opt_int (width media_el));
             ("height", opt_int (height media_el));
             ("vcodec", vcodec);
             ("preference", opt_int preference);
             ("quality", opt_int quality) ] ],
     manifest_url) in
  if bootstrap then terminal manifest_url
  else
    let media_url :=
      match (if version_2 then href media_el else None) with
      | Some u => Some u
      | None => url media_el
      end in
    match media_url with
    | None => st
    | Some "" => st
    | Some media_url =>
        let manifest_url :=
          if startswith "http://" media_url || startswith "https://" media_url
          then media_url
          else
            (match manifest_base_url with
             | Some b => if b =? "" then before_last_slash manifest_url else b
             | None => before_last_slash manifest_url
             end) ++ "/" ++ media_url in
        let ext := determine_ext manifest_url in
        if ext =? "f4m" then
          let f4m_formats := _extract_f4m_formats manifest_url in
          let f4m_formats :=
            match f4m_formats with
            | [f] =>
                [inherit_from_parent tbr (width media_el) (height media_el)
                   format_id vcodec f]
            | _ => f4m_formats
            end in
          (app formats f4m_formats, manifest_url)
        else if ext =? "m3u8" then
          (app formats (_extract_m3u8_formats manifest_url), manifest_url)
        else terminal manifest_url
    end.

(** [enumerate(l)]. *)
Definition enumerate {A : Type} (l : list A) : list (Z * A) :=
  combine (map Z.of_nat (seq 0 (List.length l))) l.

(** The body of [_parse_f4m_formats] after the player-verification test. *)
Definition parse_media_nodes (manifest : Manifest) (manifest_url : string)
  : list dict :=
  let version_1 := match media_1_0 manifest with [] => false | _ => true end in
  let media_nodes :=
    if version_1 then media_1_0 manifest else media_2_0 manifest in
  let media_nodes := remove_encrypted_media media_nodes in
  match media_nodes with
  | [] => []
  | _ =>
      let manifest_base_url := get_base_url manifest in
      let vcodec :=
        match mime_type manifest with
        | Some m => if startswith "audio/" m then VStr "none" else VNone
        | None => VNone
        end in
      fst (fold_left
             (media_step (negb version_1) manifest_base_url vcodec
                (has_bootstrap_info manifest))
             (enumerate media_nodes) ([], manifest_url))
  end.

Definition _parse_f4m_formats (manifest : Manifest) (manifest_url : string)
  : result (list dict) :=
  if negb (is_element manifest) && negb fatal then Ok []
  else if negb (is_element manifest) then Raise AttributeError
  else
    match pv_2_0 manifest with
    | Some None => Raise TypeError
    | Some (Some text) =>
        if has_player_verification_challenge text then Ok []
        else Ok (parse_media_nodes manifest manifest_url)
    | None => Ok (parse_media_nodes manifest manifest_url)
    end.

End Parser.

End F4M.

(** ** HLS: [_parse_m3u8_formats_and_subtitles] *)

Module HLS.

Import Py.
Local Open Scope string_scope.

(** The two kinds of playlist, told apart by [#EXT-X-TARGETDURATION]. *)
Inductive playlist_kind : Type := MediaPlaylist | MasterPlaylist.

Definition classify (m3u8_doc : string) : playlist_kind :=
  if contains "#EXT-X-TARGETDURATION" m3u8_doc
  then MediaPlaylist else MasterPlaylist.

(** [sum(line.startswith('#EXT-X-DISCONTINUITY')
         for line in m3u8_doc.splitlines())]. *)
Definition discontinuities (m3u8_doc : string) : nat :=
  List.length
    (filter (startswith "#EXT-X-DISCONTINUITY") (splitlines m3u8_doc)).

(** [range(n)] as format indices. *)
Definition index_range (n : nat) : list value :=
  map (fun i => VInt (Z.of_nat i)) (seq 0 n).

Section Parser.

(** [HlsFD._has_drm], [urllib.parse.urljoin], [utils.encode_data_uri] of
    the encoded document, [utils.join_nonempty], [parse_m3u8_attributes],
    [determine_ext], [float_or_none(v, scale)], [parse_codecs], the
    ['%d' % v] of the format id, the two regular-expression searches of
    the variant loop, and [self._download_webpage], which gives [None]
    for the [False] of a download that failed. *)
Variable _has_drm : string -> bool.
Variable urljoin : option string -> string -> string.
Variable encode_data_uri : string -> string.
Variable join_nonempty : list value -> string.
Variable parse_m3u8_attributes : string -> attrib.
Variable determine_ext : string -> string.
Variable float_or_none : option string -> Z -> value.
Variable parse_codecs : option string -> dict.
Variable format_d : value -> string.
Variable search_resolution : string -> option (Z * Z).
Variable search_usp_bitrates : string -> option (option string * option string).
Variable _download_webpage : string -> option string.

(** The arguments of the call and the [hls_split_discontinuity] option. *)
Variable m3u8_url : option string.
Variable ext : option string.
Variable entry_protocol : string.
Variable preference quality : option Z.
Variable m3u8_id : option string.
Variable live : bool.
Variable hls_split_discontinuity : bool.

Definition format_url (url : string) : string :=
  if is_http_url url then url else urljoin m3u8_url url.

(** [_extract_m3u8_playlist_indices(manifest_url, m3u8_doc)]. *)
Definition _extract_m3u8_playlist_indices
    (manifest_url : option string) (m3u8_doc : option string) : list value :=
  if hls_split_discontinuity then
    let counted (doc : string) := index_range (1 + discontinuities doc) in
    if nonempty m3u8_doc then
      match m3u8_doc with
      | Some doc => counted doc
      | None => []
      end
    else if nonempty manifest_url then
      match manifest_url with
      | Some u =>
          match _download_webpage u with
          | Some doc => counted doc
          | None => []
          end
      | None => []
      end
    else []
  else [VNone].

(** The formats of a media playlist: the playlist itself, once for each
    index. *)
Definition media_playlist_formats (m3u8_doc : string) : list dict :=
  let has_drm := _has_drm m3u8_doc in
  map (fun idx =>
         mkdict
           [ ("format_id", VStr (join_nonempty [opt_str m3u8_id; idx]));
             ("format_index", idx);
             ("url",
               VStr (match m3u8_url with
                     | Some u => if u =? "" then encode_data_uri m3u8_doc else u
                     | None => encode_data_uri m3u8_doc
                     end));
             ("ext", opt_str ext);
             ("protocol", VStr entry_protocol);
             ("preference", opt_int preference);
             ("quality", opt_int quality);
             ("has_drm", VBool has_drm) ])
      (_extract_m3u8_playlist_indices None (Some m3u8_doc)).

(** *** The master playlist, pass 1: [extract_media] *)

Definition groups_t : Type := list (string * list attrib).
Definition subtitles_t : Type := list (string * list dict).

Record media_state : Type := {
  groups : groups_t;
  subtitles : subtitles_t;
  media_formats : list dict
}.

Definition rendition_formats (has_drm : bool) (media : attrib)
    (media_type group_id name media_url : string) : list dict :=
  let manifest_url := format_url media_url in
  map (fun idx =>
         mkdict
           [ ("format_id",
               VStr (join_nonempty
                       [opt_str m3u8_id; VStr group_id; VStr name; idx]));
             ("format_note", VStr name);
             ("format_index", idx);
             ("url", VStr manifest_url);
             ("manifest_url", opt_str m3u8_url);
             ("language", opt_str (aget "LANGUAGE" media));
             ("ext", opt_str ext);
             ("protocol", VStr entry_protocol);
             ("preference", opt_int preference);
             ("quality", opt_int quality);
             ("has_drm", VBool has_drm);
             ("vcodec", if media_type =? "AUDIO" then VStr "none" else VNone) ])
      (_extract_m3u8_playlist_indices (Some manifest_url) None).

Definition extract_media (has_drm : bool) (st : media_state)
    (x_media_line : string) : media_state :=
  let media := parse_m3u8_attributes x_media_line in
  match aget "TYPE" media, aget "GROUP-ID" media, aget "NAME" media with
  | Some media_type, Some group_id, Some name =>
      if (media_type =? "") || (group_id =? "") || (name =? "") then st
      else
        let groups' := setdefault_append group_id media (groups st) in
        let with_formats (subs : subtitles_t) : media_state :=
          if (media_type =? "VIDEO") || (media_type =? "AUDIO") then
            match aget "URI" media with
            | Some media_url =>
                if media_url =? "" then
                  {| groups := groups'; subtitles := subs;
                     media_formats := media_formats st |}
                else
                  {| groups := groups'; subtitles := subs;
                     media_formats :=
                       app (media_formats st)
                         (rendition_formats has_drm media media_type group_id
                            name media_url) |}
            | None =>
                {| groups := groups'; subtitles := subs;
                   media_formats := media_formats st |}
            end
          else
            {| groups := groups'; subtitles := subs;
               media_formats := media_formats st |} in
        if media_type =? "SUBTITLES" then
          if nonempty (aget "URI" media) then
            match aget "URI" media with
            | Some uri =>
                let url := format_url uri in
                let e := determine_ext url in
                let sub_info :=
                  if e =? "m3u8"
                  then mkdict [ ("url", VStr url); ("ext", VStr "vtt");
                                ("protocol", VStr "m3u8_native") ]
                  else mkdict [ ("url", VStr url); ("ext", VStr e) ] in
                let lang :=
                  match or_else (aget "LANGUAGE" media) (Some "und") with
                  | Some l => l
                  | None => "und"
                  end in
                with_formats (setdefault_append lang sub_info (subtitles st))
            | None => st
            end
          else
            {| groups := groups'; subtitles := subtitles st;
               media_formats := media_formats st |}
        else with_formats (subtitles st)
  | _, _, _ => st
  end.

(** The first loop over the lines: only [#EXT-X-MEDIA:] lines count. *)
Definition media_pass (has_drm : bool) (lines : list string) : media_state :=
  fold_left
    (fun st line =>
       if startswith "#EXT-X-MEDIA:" line then extract_media has_drm st line
       else st)
    lines
    {| groups := []; subtitles := []; media_formats := [] |}.

(** *** The master playlist, pass 2: the variant streams *)

(** [build_stream_name()]: the [NAME] of the tag, else the name of the
    first rendition of the [VIDEO] group, else the group id. *)
Definition build_stream_name (groups : groups_t) (last_stream_inf : attrib)
  : option string :=
  if nonempty (aget "NAME" last_stream_inf) then aget "NAME" last_stream_inf
  else if nonempty (aget "VIDEO" last_stream_inf) then
    match aget "VIDEO" last_stream_inf with
    | Some stream_group_id =>
        match lget stream_group_id groups with
        | Some (rendition :: _) =>
            or_else (aget "NAME" rendition) (Some stream_group_id)
        | _ => Some stream_group_id
        end
    | None => None
    end
  else None.

Definition is_none_codec (v : value) : bool :=
  match v with
  | VStr s => s =? "none"
  | _ => false
  end.

(** The test that links a variant to its audio rendition group. *)
Definition audio_is_separate (groups : groups_t) (last_stream_inf : attrib)
    (codecs f : dict) : bool :=
  nonempty (aget "AUDIO" last_stream_inf)
  && negb (match codecs with [] => true | _ => false end)
  && negb (is_none_codec (dget "vcodec" f))
  && match aget "AUDIO" last_stream_inf with
     | Some audio_group_id =>
         match lget audio_group_id groups with
         | Some (rendition :: _) => nonempty (aget "URI" rendition)
         | _ => false
         end
     | None => false
     end.

(** The format [f] of one variant and one index up to the search for
    the bit rates in the URL; [n_formats] is [len(formats)] at that
    point. *)
Definition variant_base (has_drm : bool) (groups : groups_t)
    (last_stream_inf : attrib) (tbr : value) (manifest_url : string)
    (n_formats : nat) (idx : value) : dict :=
  let stream_part :=
    if live then VNone
    else
      match or_else (build_stream_name groups last_stream_inf) None with
      | Some stream_name => VStr stream_name
      | None => VStr (format_d (py_or tbr (VInt (Z.of_nat n_formats))))
      end in
  let f :=
    mkdict
      [ ("format_id", VStr (join_nonempty [opt_str m3u8_id; stream_part; idx]));
        ("format_index", idx);
        ("url", VStr manifest_url);
        ("manifest_url", opt_str m3u8_url);
        ("tbr", tbr);
        ("ext", opt_str ext);
        ("fps", float_or_none (aget "FRAME-RATE" last_stream_inf) 1);
        ("protocol", VStr entry_protocol);
        ("preference", opt_int preference);
        ("quality", opt_int quality);
        ("has_drm", VBool has_drm) ] in
  let f :=
    match aget "YT-EXT-AUDIO-CONTENT-ID" last_stream_inf with
    | Some yt_audio_content_id =>
        if yt_audio_content_id =? "" then f
        else setitem "language" (VStr (before_first "." yt_audio_content_id)) f
    | None => f
    end in
  let f :=
    match aget "RESOLUTION" last_stream_inf with
    | Some resolution =>
        if resolution =? "" then f
        else
          match search_resolution resolution with
          | Some (w, h) =>
              setitem "height" (VInt h) (setitem "width" (VInt w) f)
          | None => f
          end
    | None => f
    end in
  match search_usp_bitrates manifest_url with
  | Some (abr, vbr) =>
      update f [ ("vbr", float_or_none vbr 1000);
                 ("abr", float_or_none abr 1000) ]
  | None => f
  end.

(** The rest of the body: the codecs, the audio rendition group and the
    default extension. *)
Definition with_codecs (groups : groups_t) (last_stream_inf : attrib)
    (f : dict) : dict :=
  let codecs := parse_codecs (aget "CODECS" last_stream_inf) in
  let f := update f codecs in
  let f :=
    if audio_is_separate groups last_stream_inf codecs f
    then setitem "acodec" (VStr "none") f else f in
  if truthy (dget "ext" f) then f
  else setitem "ext"
         (VStr (if is_none_codec (dget "vcodec" f) then "m4a" else "mp4")) f.

(** The format [f] as it is when it is appended. *)
Definition variant_format (has_drm : bool) (groups : groups_t)
    (last_stream_inf : attrib) (tbr : value) (manifest_url : string)
    (n_formats : nat) (idx : value) : dict :=
  with_codecs groups last_stream_inf
    (variant_base has_drm groups last_stream_inf tbr manifest_url n_formats
       idx).

(** The copy that a [PROGRESSIVE-URI] adds after [f]. *)
Definition progressive_format (f : dict) (progressive_uri : string) : dict :=
  let http_f := delitem "manifest_url" f in
  update http_f
    [ ("format_id",
        match dget "format_id" f with
        | VStr s => VStr (replace "hls-" "http-" s)
        | v => v
        end);
      ("protocol", VStr "http");
      ("url", VStr progressive_uri) ].

(** One turn of [for idx in _extract_m3u8_playlist_indices(manifest_url)]. *)
Definition variant_step (has_drm : bool) (groups : groups_t)
    (last_stream_inf : attrib) (tbr : value) (manifest_url : string)
    (formats : list dict) (idx : value) : list dict :=
  let f := variant_format has_drm groups last_stream_inf tbr manifest_url
             (List.length formats) idx in
  let formats := app formats [f] in
  match aget "PROGRESSIVE-URI" last_stream_inf with
  | Some progressive_uri =>
      if progressive_uri =? "" then formats
      else app formats [progressive_format f progressive_uri]
  | None => formats
  end.

(** What a URI line adds to [formats]. *)
Definition variant_formats (has_drm : bool) (groups : groups_t)
    (last_stream_inf : attrib) (line : string) (formats : list dict)
  : list dict :=
  let tbr :=
    float_or_none
      (or_else (aget "AVERAGE-BANDWIDTH" last_stream_inf)
         (aget "BANDWIDTH" last_stream_inf)) 1000 in
  let manifest_url := format_url (strip line) in
  fold_left (variant_step has_drm groups last_stream_inf tbr manifest_url)
    (_extract_m3u8_playlist_indices (Some manifest_url) None) formats.

(** One turn of the second loop over the lines; the state is
    [last_stream_inf] and [formats]. *)
Definition stream_step (has_drm : bool) (groups : groups_t)
    (st : attrib * list dict) (line : string) : attrib * list dict :=
  let '(last_stream_inf, formats) := st in
  if startswith "#EXT-X-STREAM-INF:" line
  then (parse_m3u8_attributes line, formats)
  else if startswith "#" line || (strip line =? "") then st
  else ([], variant_formats has_drm groups last_stream_inf line formats).

Definition master_playlist (m3u8_doc : string) : list dict * subtitles_t :=
  let has_drm := _has_drm m3u8_doc in
  let lines := splitlines m3u8_doc in
  let st := media_pass has_drm lines in
  (snd (fold_left (stream_step has_drm (groups st)) lines
          ([], media_formats st)),
   subtitles st).

Definition _parse_m3u8_formats_and_subtitles (m3u8_doc : string)
  : list dict * subtitles_t :=
  match classify m3u8_doc with
  | MediaPlaylist => (media_playlist_formats m3u8_doc, [])
  | MasterPlaylist => master_playlist m3u8_doc
  end.

End Parser.

End HLS.

(** ** DASH: templates, segment timelines and the merge of periods *)

Module DASH.

Import Py.
Local Open Scope string_scope.

(** *** [prepare_template] *)

(** The identifiers that the two call sites pass:
    [('Number', 'Bandwidth', 'Time')] for [media] and [('Bandwidth',)]
    for [initialization]. *)
Inductive ident : Type := Number | Bandwidth | Time.

Definition ident_name (i : ident) : string :=
  match i with
  | Number => "Number"
  | Bandwidth => "Bandwidth"
  | Time => "Time"
  end.

(** The loop [for c in tmpl]: every character is copied, ['$'] flips
    [in_template], and a ['%'] met outside a template is copied twice. *)
Fixpoint escape_percent (in_template : bool) (tmpl : string) : string :=
  match tmpl with
  | EmptyString => EmptyString
  | String c rest =>
      if Ascii.eqb c "$" then String c (escape_percent (negb in_template) rest)
      else if Ascii.eqb c "%" && negb in_template
           then String c (String c (escape_percent in_template rest))
           else String c (escape_percent in_template rest)
  end.

(** [re.sub]: at each position, left to right, [matcher] gives the
    replacement and the length of the match that starts there; [skip]
    counts the matched characters still to be dropped. *)
Section Sub.

Variable matcher : string -> option (string * nat).

Fixpoint sub_from (skip : nat) (s : string) : string :=
  match s with
  | EmptyString => EmptyString
  | String c rest =>
      match skip with
      | S n => sub_from n rest
      | O =>
          match matcher s with
          | Some (repl, len) => repl ++ sub_from (Nat.pred len) rest
          | None => String c (sub_from 0 rest)
          end
      end
  end.

End Sub.

(** [\$(Number|Bandwidth|Time)\$] replaced by [%(\1)d]. *)
Fixpoint match_plain (identifiers : list ident) (s : string)
  : option (string * nat) :=
  match identifiers with
  | [] => None
  | i :: more =>
      let pat := "$" ++ ident_name i ++ "$" in
      if prefix pat s
      then Some ("%(" ++ ident_name i ++ ")d", String.length pat)
      else match_plain more s
  end.

(** [\$(Number|Bandwidth|Time)%([^$]+)\$] replaced by [%(\1)\2]. *)
Fixpoint match_formatted (identifiers : list ident) (s : string)
  : option (string * nat) :=
  match identifiers with
  | [] => None
  | i :: more =>
      let head := "$" ++ ident_name i ++ "%" in
      if prefix head s then
        match until_char "$" (drop (String.length head) s) with
        | Some spec =>
            if spec =? "" then match_formatted more s
            else Some ("%(" ++ ident_name i ++ ")" ++ spec,
                       String.length head + String.length spec + 1)
        | None => match_formatted more s
        end
      else match_formatted more s
  end.

(** [prepare_template(template_name, identifiers)], with [tmpl] the
    template that [representation_ms_info[template_name]] holds.  The
    last statement of the source, [t.replace('$$', '$')], drops its
    result and so changes nothing. *)
Definition prepare_template (tmpl : string) (representation_id : option string)
    (identifiers : list ident) : string :=
  let tmpl :=
    match representation_id with
    | Some rid => replace "$RepresentationID$" rid tmpl
    | None => tmpl
    end in
  let t := escape_percent false tmpl in
  let t := sub_from (match_plain identifiers) 0 t in
  let t := sub_from (match_formatted identifiers) 0 t in
  t.

(** *** The [%] operator on a template and a mapping

    The conversions covered are [%%] and [%(key)d] with an optional
    ['0'] flag and width, which is what [$Id$] and [$Id%0Nd$] become.
    Of the others, those that the operator refuses whatever the value
    is are covered too: a key without its [')'], a conversion that ends
    with the template, and a character after the key and the width that
    no conversion can have there, all of them a [ValueError] once the
    key is found.  Any other conversion gives [NotModelled]. *)

Definition digit_of (c : ascii) : option (Decimal.uint -> Decimal.uint) :=
  if Ascii.eqb c "0" then Some Decimal.D0
  else if Ascii.eqb c "1" then Some Decimal.D1
  else if Ascii.eqb c "2" then Some Decimal.D2
  else if Ascii.eqb c "3" then Some Decimal.D3
  else if Ascii.eqb c "4" then Some Decimal.D4
  else if Ascii.eqb c "5" then Some Decimal.D5
  else if Ascii.eqb c "6" then Some Decimal.D6
  else if Ascii.eqb c "7" then Some Decimal.D7
  else if Ascii.eqb c "8" then Some Decimal.D8
  else if Ascii.eqb c "9" then Some Decimal.D9
  else None.

(** The digits at the head of [s]. *)
Fixpoint read_uint (s : string) : Decimal.uint :=
  match s with
  | EmptyString => Decimal.Nil
  | String c rest =>
      match digit_of c with
      | Some k => k (read_uint rest)
      | None => Decimal.Nil
      end
  end.

Definition leading_zero (d : Decimal.uint) : bool :=
  match d with
  | Decimal.D0 _ => true
  | _ => false
  end.

(** What follows a ['%']: the key, the ['0'] flag, the width and the
    number of characters read. *)
Definition parse_conversion (s : string) : option (string * bool * nat * nat) :=
  match s with
  | String "(" after_paren =>
      match until_char ")" after_paren with
      | Some key =>
          let after_key := drop (S (String.length key)) after_paren in
          let digits := read_uint after_key in
          let n := Decimal.nb_digits digits in
          match drop n after_key with
          | String "d" _ =>
              Some (key, leading_zero digits, Nat.of_uint digits,
                    S (String.length key) + 1 + n + 1)
          | _ => None
          end
      | None => None
      end
  | _ => None
  end.

(** The characters that a conversion can have after its key, its
    ['0'] flag and its width: the other flags, ['*'], the precision, the
    length modifiers and the conversion types. *)
Definition may_continue_conversion (c : ascii) : bool :=
  has_char c "-+ #0123456789*.hlLdiouxXeEfFgGcrsab".

(** The exception of a conversion that [parse_conversion] does not
    read.  The key is looked up as soon as it is read, before the rest
    of the conversion. *)
Definition refused_conversion (env : dict) (s : string) : exn :=
  match s with
  | String "(" after_paren =>
      match until_char ")" after_paren with
      | Some key =>
          match lookup key env with
          | None => KeyError
          | Some _ =>
              let after_key := drop (S (String.length key)) after_paren in
              let n := Decimal.nb_digits (read_uint after_key) in
              match drop n after_key with
              | EmptyString => ValueError
              | String c _ =>
                  if may_continue_conversion c then NotModelled
                  else ValueError
              end
          end
      | None => ValueError
      end
  | _ => NotModelled
  end.

Fixpoint pad (n : nat) (c : ascii) : string :=
  match n with
  | O => EmptyString
  | S n' => String c (pad n' c)
  end.

(** [str(abs(z))]. *)
Definition abs_digits (z : Z) : string :=
  NilEmpty.string_of_uint (N.to_uint (Z.abs_N z)).

(** ['%0<width>d' % z] when [zero_pad], ['%<width>d' % z] otherwise. *)
Definition render_d (zero_pad : bool) (width : nat) (z : Z) : string :=
  let sign := if (z <? 0)%Z then "-" else "" in
  let digits := abs_digits z in
  if zero_pad
  then sign ++ pad (width - String.length sign - String.length digits) "0"
         ++ digits
  else pad (width - String.length sign - String.length digits) " "
         ++ sign ++ digits.

Fixpoint format_from (env : dict) (skip : nat) (s : string) : result string :=
  match s with
  | EmptyString => Ok EmptyString
  | String c rest =>
      match skip with
      | S n => format_from env n rest
      | O =>
          if Ascii.eqb c "%" then
            match rest with
            | EmptyString => Raise ValueError
            | String "%" _ =>
                out <- format_from env 1 rest ;; Ok (String "%" out)
            | _ =>
                match parse_conversion rest with
                | Some (key, zero_pad, width, len) =>
                    match lookup key env with
                    | None => Raise KeyError
                    | Some (VInt z) =>
                        out <- format_from env len rest ;;
                        Ok (render_d zero_pad width z ++ out)
                    | Some (VBool b) =>
                        out <- format_from env len rest ;;
                        Ok (render_d zero_pad width (if b then 1 else 0) ++ out)
                    | Some (VFloat _) => Raise NotModelled
                    | Some _ => Raise TypeError
                    end
                | None => Raise (refused_conversion env rest)
                end
            end
          else out <- format_from env 0 rest ;; Ok (String c out)
      end
  end.

(** [template % env]. *)
Definition py_format (template : string) (env : dict) : result string :=
  format_from env 0 template.

(** [location_key(location)]. *)
Definition location_key (location : string) : string :=
  if is_http_url location then "url" else "path".

(** *** Segment timelines *)

(** An [S] element of a [SegmentTimeline], with the attributes [t], [d]
    and [r] as [int()] reads them when they are present. *)
Record S_element : Type := {
  attr_t : option Z;
  attr_d : option Z;
  attr_r : option Z
}.

(** An entry of [ms_info['s']]. *)
Record s_entry : Type := {
  t : Z;
  d : Z;
  r : Z
}.

(** The loop [for s in s_e] of [extract_common]: [ms_info['total_number']]
    and [ms_info['s']].  A missing [d] is the [KeyError] of
    [s.attrib['d']]. *)
Definition extract_s (st : Z * list s_entry) (s : S_element)
  : result (Z * list s_entry) :=
  let '(total_number, entries) := st in
  let r := match attr_r s with Some r => r | None => 0%Z end in
  let total_number := (total_number + (1 + r))%Z in
  match attr_d s with
  | None => Raise KeyError
  | Some d =>
      Ok (total_number,
          app entries
            [ {| t := match attr_t s with Some t => t | None => 0%Z end;
                 d := d;
                 r := r |} ])
  end.

Definition extract_timeline (s_e : list S_element)
  : result (Z * list s_entry) :=
  foldM extract_s s_e (0%Z, []).

(** Modelled from the spec: [utils.float_or_none(v, scale)], which is
    not in this file, on the two integers that the timelines give it.
    The specification has the duration of a fragment as
    [d / timescale]; the helper divides [float(v)] by [scale] and
    catches [ValueError] and [TypeError] only, so that a [scale] of zero
    is the [ZeroDivisionError] of the division.  The float that the
    division gives is carried by the rational [v / scale]: its rounding
    is left out, as for every float of this file. *)
Definition float_or_none (v scale : Z) : result value :=
  if (scale =? 0)%Z then Raise ZeroDivisionError
  else Ok (VFloat (Qred (inject_Z v / inject_Z scale)%Q)).

Section Fragments.

(** The representation at hand. *)
Variable media_template : string.
Variable bandwidth : option Z.
Variable timescale : Z.
Variable start_number : Z.

(** The variables that [add_segment_url] reads and the list it appends
    to. *)
Record cursor : Type := {
  fragments_so_far : list dict;
  segment_time : Z;
  segment_number : Z
}.

(** [add_segment_url()] followed by [segment_number += 1]: the URL is
    made first, the duration after it. *)
Definition add_segment_url (segment_d : Z) (c : cursor) : result cursor :=
  segment_url <-
    py_format media_template
      [ ("Time", VInt (segment_time c));
        ("Bandwidth", opt_int bandwidth);
        ("Number", VInt (segment_number c)) ] ;;
  duration <- float_or_none segment_d timescale ;;
  Ok {| fragments_so_far :=
          app (fragments_so_far c)
            [ [ (location_key media_template, VStr segment_url);
                ("duration", duration) ] ];
        segment_time := segment_time c;
        segment_number := (segment_number c + 1)%Z |}.

(** [for _ in range(n)]: advance the time, add a segment. *)
Fixpoint repeat_segments (n : nat) (segment_d : Z) (c : cursor)
  : result cursor :=
  match n with
  | O => Ok c
  | S n' =>
      c' <- add_segment_url segment_d
              {| fragments_so_far := fragments_so_far c;
                 segment_time := (segment_time c + segment_d)%Z;
                 segment_number := segment_number c |} ;;
      repeat_segments n' segment_d c'
  end.

(** One turn of [for s in representation_ms_info['s']] in the branch of
    the [$Time$] and [$Number$] templates; the first segment is at
    [s.get('t') or segment_time]. *)
Definition timeline_step (c : cursor) (s : s_entry) : result cursor :=
  let segment_d := d s in
  c1 <- add_segment_url segment_d
          {| fragments_so_far := fragments_so_far c;
             segment_time := if (t s =? 0)%Z then segment_time c else t s;
             segment_number := segment_number c |} ;;
  c2 <- repeat_segments (Z.to_nat (r s)) segment_d c1 ;;
  Ok {| fragments_so_far := fragments_so_far c2;
        segment_time := (segment_time c2 + segment_d)%Z;
        segment_number := segment_number c2 |}.

(** [representation_ms_info['fragments']] of the template branch. *)
Definition template_timeline_fragments (s : list s_entry)
  : result (list dict) :=
  c <- foldM timeline_step s
         {| fragments_so_far := [];
            segment_time := 0%Z;
            segment_number := start_number |} ;;
  Ok (fragments_so_far c).

(** The branch of an explicit [SegmentURL] list with a timeline:
    [for _ in range(s.get('r', 0) + 1)] reads
    [segment_urls[segment_index]], an [IndexError] past the end. *)
Fixpoint take_segment_urls (segment_urls : list string) (duration : value)
    (n : nat) (st : list dict * nat) : result (list dict * nat) :=
  match n with
  | O => Ok st
  | S n' =>
      let '(fragments, segment_index) := st in
      match nth_error segment_urls segment_index with
      | None => Raise IndexError
      | Some segment_uri =>
          take_segment_urls segment_urls duration n'
            (app fragments
               [ [ (location_key segment_uri, VStr segment_uri);
                   ("duration", duration) ] ],
             S segment_index)
      end
  end.

(** One turn of [for s in representation_ms_info['s']]: the duration
    is computed before any URL is read. *)
Definition segment_list_step (segment_urls : list string)
    (st : list dict * nat) (s : s_entry) : result (list dict * nat) :=
  duration <- float_or_none (d s) timescale ;;
  take_segment_urls segment_urls duration (Z.to_nat (r s + 1)) st.

Definition segment_list_timeline_fragments (segment_urls : list string)
    (s : list s_entry) : result (list dict) :=
  st <- foldM (segment_list_step segment_urls) s ([], O) ;;
  Ok (fst st).

End Fragments.

(** *** [_merge_mpd_periods] *)

(** A format of a period: the items of the dictionary other than
    ['fragments'], in order, and the list under ['fragments'] when the
    key is there.  Formats are taken by value: the format objects of the
    argument are distinct, as those that [_parse_mpd_periods] yields. *)
Record Format : Type := {
  attrs : dict;
  fragments : option (list dict)
}.

Record Period : Type := {
  formats : list Format;
  subtitles : list (string * list dict)
}.

Definition excluded_key (k : string) : bool :=
  (k =? "format_id") || (k =? "fragments") || (k =? "manifest_stream_number").

(** [tuple(v for k, v in f.items() if k not in (...))]. *)
Definition format_key (f : Format) : list hkey :=
  map (fun kv => key_of_value (snd kv))
    (filter (fun kv => negb (excluded_key (fst kv))) (attrs f)).

(** The dictionary [formats] of the merge, in insertion order. *)
Definition merged : Type := list (list hkey * Format).

Fixpoint find_key (k : list hkey) (m : merged) : bool :=
  match m with
  | [] => false
  | (k', _) :: m' => if key_eqb k' k then true else find_key k m'
  end.

(** [formats[k].setdefault('fragments', []).extend(more)]. *)
Fixpoint extend_fragments (k : list hkey) (more : list dict) (m : merged)
  : merged :=
  match m with
  | [] => []
  | (k', g) :: m' =>
      if key_eqb k' k
      then (k', {| attrs := attrs g;
                   fragments :=
                     Some (app (match fragments g with
                                | Some l => l
                                | None => []
                                end) more) |}) :: m'
      else (k', g) :: extend_fragments k more m'
  end.

(** One turn of [for f in period['formats']]. *)
Definition merge_format (m : merged) (f : Format) : result merged :=
  if mem "is_dash_periods" (attrs f) then Raise AssertionError
  else
    let f := {| attrs := setitem "is_dash_periods" (VBool true) (attrs f);
                fragments := fragments f |} in
    let format_key := format_key f in
    if negb (find_key format_key m) then Ok (app m [(format_key, f)])
    else
      match fragments f with
      | Some more => Ok (extend_fragments format_key more m)
      | None => Ok m
      end.

(** [subtitles.setdefault(sub_lang, []).extend(sub_info)]. *)
Fixpoint setdefault_extend (k : string) (more : list dict)
    (d : list (string * list dict)) : list (string * list dict) :=
  match d with
  | [] => [(k, more)]
  | (k', l) :: d' =>
      if k' =? k then (k', app l more) :: d'
      else (k', l) :: setdefault_extend k more d'
  end.

(** The state of the merge: [formats], [subtitles], and whether the
    warning about subtitles in several periods was reported. *)
Record merge_state : Type := {
  merged_formats : merged;
  merged_subtitles : list (string * list dict);
  warned : bool
}.

Definition nonempty_dict {A : Type} (d : list A) : bool :=
  match d with
  | [] => false
  | _ => true
  end.

(** One turn of [for period in periods]. *)
Definition merge_period (st : merge_state) (period : Period)
  : result merge_state :=
  m <- foldM merge_format (formats period) (merged_formats st) ;;
  Ok {| merged_formats := m;
        merged_subtitles :=
          fold_left (fun subs kv => setdefault_extend (fst kv) (snd kv) subs)
            (subtitles period) (merged_subtitles st);
        warned :=
          warned st
          || (nonempty_dict (merged_subtitles st)
              && nonempty_dict (subtitles period)) |}.

(** [_merge_mpd_periods(periods)]: [list(formats.values())] and
    [subtitles]. *)
Definition _merge_mpd_periods (periods : list Period)
  : result (list Format * list (string * list dict)) :=
  st <- foldM merge_period periods
          {| merged_formats := []; merged_subtitles := []; warned := false |} ;;
  Ok (map snd (merged_formats st), merged_subtitles st).

End DASH.

(** ** Smooth Streaming: the fragment timeline of
    [_parse_ism_formats_and_subtitles] *)

Module ISM.

Import Py.
Local Open Scope string_scope.

(** An element found under a [c] element, with its attribute [t]. *)
Record child_element : Type := {
  child_t : option Z
}.

(** A [c] element: the attributes [t], [d] and [r] as [int_or_none]
    reads them, and the child elements, which [stream_fragment[i]]
    indexes. *)
Record c_element : Type := {
  c_t : option Z;
  c_d : option Z;
  c_r : option Z;
  c_children : list child_element
}.

(** A Python number: [/] always gives a [float], the other operations
    give an [int] on two [int]s. *)
Inductive num : Type :=
| NInt (z : Z)
| NFloat (q : Q).

Definition to_Q (n : num) : Q :=
  match n with
  | NInt z => inject_Z z
  | NFloat q => q
  end.

Definition num_add (a b : num) : num :=
  match a, b with
  | NInt x, NInt y => NInt (x + y)
  | _, _ => NFloat (Qred (to_Q a + to_Q b))
  end.

Definition num_sub (a b : num) : num :=
  match a, b with
  | NInt x, NInt y => NInt (x - y)
  | _, _ => NFloat (Qred (to_Q a - to_Q b))
  end.

(** [a / b] for an [int] [b] that is not zero. *)
Definition num_div (a : num) (b : Z) : num :=
  NFloat (Qred (to_Q a / inject_Z b)).

(** [int_or_none(x) or default]. *)
Definition int_or (x : option Z) (default : Z) : Z :=
  match x with
  | Some z => if (z =? 0)%Z then default else z
  | None => default
  end.

Section Timeline.

(** [re.sub(r'{start[ _]time}', str(time), track_url_pattern)]. *)
Variable fragment_url : num -> string.

(** [int(ism_doc.attrib['Duration'])] and the time scale of the stream. *)
Variable duration : Z.
Variable stream_timescale : Z.

(** [fragment_ctx] and the list [fragments]. *)
Record ctx : Type := {
  fragments : list dict;
  time : num
}.

(** [for _ in range(fragment_repeat)]. *)
Fixpoint repeat_fragment (n : nat) (fragment_duration : num) (c : ctx) : ctx :=
  match n with
  | O => c
  | S n' =>
      repeat_fragment n' fragment_duration
        {| fragments :=
             app (fragments c)
               [ [ ("url", VStr (fragment_url (time c)));
                   ("duration",
                     VFloat (to_Q (num_div fragment_duration
                                     stream_timescale))) ] ];
           time := num_add (time c) fragment_duration |}
  end.

(** One turn of [for stream_fragment_index, stream_fragment in
    enumerate(stream_fragments)].  When [d] is missing the next time is
    read from [stream_fragment[stream_fragment_index + 1]], the child
    of the [c] element at hand with that index: [IndexError] is caught
    and gives [duration], a child without [t] is a [KeyError]. *)
Definition fragment_step (c : ctx) (ic : nat * c_element) : result ctx :=
  let '(stream_fragment_index, stream_fragment) := ic in
  let time := match c_t stream_fragment with
              | Some t => if (t =? 0)%Z then time c else NInt t
              | None => time c
              end in
  let fragment_repeat := int_or (c_r stream_fragment) 1 in
  let inferred :=
    match nth_error (c_children stream_fragment)
            (stream_fragment_index + 1) with
    | None => Ok (num_div (num_sub (NInt duration) time) fragment_repeat)
    | Some next =>
        match child_t next with
        | Some next_fragment_time =>
            Ok (num_div (num_sub (NInt next_fragment_time) time)
                  fragment_repeat)
        | None => Raise KeyError
        end
    end in
  fragment_duration <-
    match c_d stream_fragment with
    | Some d => if (d =? 0)%Z then inferred else Ok (NInt d)
    | None => inferred
    end ;;
  Ok (repeat_fragment (Z.to_nat fragment_repeat) fragment_duration
        {| fragments := fragments c; time := time |}).

(** [enumerate(l)]. *)
Definition enumerate {A : Type} (l : list A) : list (nat * A) :=
  combine (seq 0 (List.length l)) l.

(** The list [fragments] of a track, from [stream.findall('c')]. *)
Definition track_fragments (stream_fragments : list c_element)
  : result (list dict) :=
  c <- foldM fragment_step (enumerate stream_fragments)
         {| fragments := []; time := NInt 0 |} ;;
  Ok (fragments c).

(** The rule in the words of the specification: the duration that is
    missing comes from the [t] of the next [c] element of the stream,
    and from [Duration] for the last one. *)
Definition fragment_step_spec (stream_fragments : list c_element)
    (c : ctx) (ic : nat * c_element) : result ctx :=
  let '(stream_fragment_index, stream_fragment) := ic in
  let time := match c_t stream_fragment with
              | Some t => if (t =? 0)%Z then time c else NInt t
              | None => time c
              end in
  let fragment_repeat := int_or (c_r stream_fragment) 1 in
  let inferred :=
    match nth_error stream_fragments (stream_fragment_index + 1) with
    | None => Ok (num_div (num_sub (NInt duration) time) fragment_repeat)
    | Some next =>
        match c_t next with
        | Some next_fragment_time =>
            Ok (num_div (num_sub (NInt next_fragment_time) time)
                  fragment_repeat)
        | None => Raise KeyError
        end
    end in
  fragment_duration <-
    match c_d stream_fragment with
    | Some d => if (d =? 0)%Z then inferred else Ok (NInt d)
    | None => inferred
    end ;;
  Ok (repeat_fragment (Z.to_nat fragment_repeat) fragment_duration
        {| fragments := fragments c; time := time |}).

Definition track_fragments_spec (stream_fragments : list c_element)
  : result (list dict) :=
  c <- foldM (fragment_step_spec stream_fragments)
         (enumerate stream_fragments)
         {| fragments := []; time := NInt 0 |} ;;
  Ok (fragments c).

End Timeline.

(** [timescale] of the manifest and of a stream:
    [int_or_none(...) or 10000000] and [int_or_none(...) or timescale]. *)
Definition manifest_timescale (attr : option Z) : Z := int_or attr 10000000.
Definition stream_timescale_of (attr : option Z) (timescale : Z) : Z :=
  int_or attr timescale.

End ISM.

(** ** SMIL: [_parse_smil_formats_and_subtitles] and
    [_parse_smil_subtitles] *)

Module SMIL.

Import Py.
Local Open Scope string_scope.

(** What the parser reads of the document: the results of the
    [findall] calls, each in document order. *)
Record Smil : Type := {
  metas : list attrib;
  videos : list attrib;
  audios : list attrib;
  medias : list attrib;
  imagestreams : list attrib;
  textstreams : list attrib
}.

Definition subtitles_t : Type := list (string * list dict).

(** [src in srcs]. *)
Definition seen (src : string) (srcs : list string) : bool :=
  existsb (String.eqb src) srcs.

(** [_merge_subtitle_items]: the items of the second list whose
    [(url, data)] is in the first are dropped. *)
Definition _merge_subtitle_items (subtitle_list1 subtitle_list2 : list dict)
  : list dict :=
  let same (a b : dict) :=
    py_eqb (dget "url" a) (dget "url" b)
    && py_eqb (dget "data" a) (dget "data" b) in
  app subtitle_list1
    (filter (fun item => negb (existsb (same item) subtitle_list1))
       subtitle_list2).

(** [target[lang] = ...]. *)
Fixpoint set_lang (lang : string) (items : list dict) (target : subtitles_t)
  : subtitles_t :=
  match target with
  | [] => [(lang, items)]
  | (l, old) :: target' =>
      if l =? lang then (l, items) :: target'
      else (l, old) :: set_lang lang items target'
  end.

(** [_merge_subtitles(d, target=target)]. *)
Definition _merge_subtitles (d target : subtitles_t) : subtitles_t :=
  fold_left
    (fun target kv =>
       let old := match lget (fst kv) target with
                  | Some l => l
                  | None => []
                  end in
       set_lang (fst kv) (_merge_subtitle_items old (snd kv)) target)
    d target.

Section Parser.

(** [determine_ext(src, default_ext=None)], [determine_ext(src)], the
    extension that a HEAD request reports, [float_or_none(v, scale)],
    [int_or_none], [mimetype2ext], [urllib.parse.urljoin],
    [urllib.parse.urlencode], ['%d' % v], [self._is_valid_url] and the
    extractors of the manifests that a medium can point to. *)
Variable determine_ext_or_none : string -> option string.
Variable determine_ext : string -> string.
Variable head_request_ext : string -> option string.
Variable float_or_none : option string -> Z -> value.
Variable int_or_none : option string -> value.
Variable mimetype2ext : option string -> option string.
Variable urljoin : string -> string -> string.
Variable urlencode : list (string * string) -> string.
Variable format_d : value -> string.
Variable _is_valid_url : string -> bool.
Variable _extract_m3u8_formats_and_subtitles :
  string -> string -> list dict * subtitles_t.
Variable _extract_f4m_formats : string -> list dict.
Variable _extract_mpd_formats_and_subtitles : string -> list dict * subtitles_t.
Variable _extract_ism_formats_and_subtitles : string -> list dict * subtitles_t.

(** The arguments of the call. *)
Variable smil_url : string.
Variable transform_rtmp_url : option (string -> string -> string * string).

(** [base]: the first [meta] with a [base] or an [httpBase], else the
    URL of the document. *)
Fixpoint base_of (metas : list attrib) : string :=
  match metas with
  | [] => smil_url
  | meta :: more =>
      match or_else (aget "base" meta) (aget "httpBase" meta) with
      | Some b => if b =? "" then base_of more else b
      | None => base_of more
      end
  end.

(** The variables of the loops. *)
Record state : Type := {
  formats : list dict;
  subtitles : subtitles_t;
  srcs : list string;
  rtmp_count : Z;
  http_count : Z;
  m3u8_count : Z;
  imgs_count : nat;
  f4m_params : list (string * string)
}.

Definition is_none (v : value) : bool :=
  match v with
  | VNone => true
  | _ => false
  end.

Definition str_or (o : option string) (default : string) : string :=
  match o with
  | Some s => if s =? "" then default else s
  | None => default
  end.

(** The body of the loop over [video], [audio] and [media] elements
    after [srcs.add(src)]. *)
Definition dispatch_medium (base : string) (st : state) (medium : attrib)
    (src : string) : state :=
  let bitrate :=
    float_or_none
      (or_else (aget "system-bitrate" medium) (aget "systemBitrate" medium))
      1000 in
  let filesize :=
    int_or_none (or_else (aget "size" medium) (aget "fileSize" medium)) in
  let width := int_or_none (aget "width" medium) in
  let height := int_or_none (aget "height" medium) in
  let proto := aget "proto" medium in
  let ext := aget "ext" medium in
  let src_ext :=
    or_else (or_else (determine_ext_or_none src) ext) (head_request_ext src) in
  let streamer := str_or (aget "streamer" medium) base in
  let with_formats (fs : list dict) (st : state) : state :=
    {| formats := app (formats st) fs; subtitles := subtitles st;
       srcs := srcs st; rtmp_count := rtmp_count st;
       http_count := http_count st; m3u8_count := m3u8_count st;
       imgs_count := imgs_count st; f4m_params := f4m_params st |} in
  let with_subtitles (subs : subtitles_t) (st : state) : state :=
    {| formats := formats st;
       subtitles := _merge_subtitles subs (subtitles st);
       srcs := srcs st; rtmp_count := rtmp_count st;
       http_count := http_count st; m3u8_count := m3u8_count st;
       imgs_count := imgs_count st; f4m_params := f4m_params st |} in
  if (match proto with Some p => p =? "rtmp" | None => false end)
     || startswith "rtmp" streamer
  then
    let rtmp_count := (rtmp_count st + 1)%Z in
    let f :=
      mkdict
        [ ("url", VStr streamer);
          ("play_path", VStr src);
          ("ext", VStr "flv");
          ("format_id",
            VStr ("rtmp-" ++ format_d (if is_none bitrate then VInt rtmp_count
                                       else bitrate)));
          ("tbr", bitrate);
          ("filesize", filesize);
          ("width", width);
          ("height", height) ] in
    let f :=
      match transform_rtmp_url with
      | Some transform =>
          let '(streamer, src) := transform streamer src in
          update f [ ("url", VStr streamer); ("play_path", VStr src) ]
      | None => f
      end in
    {| formats := app (formats st) [f]; subtitles := subtitles st;
       srcs := srcs st; rtmp_count := rtmp_count;
       http_count := http_count st; m3u8_count := m3u8_count st;
       imgs_count := imgs_count st; f4m_params := f4m_params st |}
  else
    let src_url :=
      strip (if startswith "http" src then src
             else urljoin (base ++ "/") src) in
    let src_ext_is (e : string) :=
      match src_ext with Some x => x =? e | None => false end in
    if (match proto with Some p => p =? "m3u8" | None => false end)
       || src_ext_is "m3u8"
    then
      let '(m3u8_formats, m3u8_subs) :=
        _extract_m3u8_formats_and_subtitles src_url (str_or ext "mp4") in
      let st := with_subtitles m3u8_subs st in
      match m3u8_formats with
      | [f] =>
          let m3u8_count := (m3u8_count st + 1)%Z in
          let f :=
            update f
              [ ("format_id",
                  VStr ("hls-" ++ format_d (if is_none bitrate
                                            then VInt m3u8_count
                                            else bitrate)));
                ("tbr", bitrate);
                ("width", width);
                ("height", height) ] in
          {| formats := app (formats st) [f]; subtitles := subtitles st;
             srcs := srcs st; rtmp_count := rtmp_count st;
             http_count := http_count st; m3u8_count := m3u8_count;
             imgs_count := imgs_count st; f4m_params := f4m_params st |}
      | _ => with_formats m3u8_formats st
      end
    else if src_ext_is "f4m" then
      let f4m_params :=
        match f4m_params st with
        | [] => [ ("hdcore", "3.2.0"); ("plugin", "flowplayer-3.2.0.1") ]
        | p => p
        end in
      let f4m_url :=
        src_url ++ (if has_char "?" src_url then "&" else "?")
          ++ urlencode f4m_params in
      {| formats := app (formats st) (_extract_f4m_formats f4m_url);
         subtitles := subtitles st;
         srcs := srcs st; rtmp_count := rtmp_count st;
         http_count := http_count st; m3u8_count := m3u8_count st;
         imgs_count := imgs_count st; f4m_params := f4m_params |}
    else if src_ext_is "mpd" then
      let '(mpd_formats, mpd_subs) :=
        _extract_mpd_formats_and_subtitles src_url in
      with_subtitles mpd_subs (with_formats mpd_formats st)
    else if contains ".ism/Manifest" src_url || contains ".ism/manifest" src_url
    then
      let '(ism_formats, ism_subs) :=
        _extract_ism_formats_and_subtitles src_url in
      with_subtitles ism_subs (with_formats ism_formats st)
    else if startswith "http" src_url && _is_valid_url src then
      let http_count := (http_count st + 1)%Z in
      let f :=
        mkdict
          [ ("url", VStr src_url);
            ("ext", VStr (str_or (or_else ext src_ext) "flv"));
            ("format_id",
              VStr ("http-" ++ format_d (py_or bitrate (VInt http_count))));
            ("tbr", bitrate);
            ("filesize", filesize);
            ("width", width);
            ("height", height) ] in
      {| formats := app (formats st) [f]; subtitles := subtitles st;
         srcs := srcs st; rtmp_count := rtmp_count st;
         http_count := http_count; m3u8_count := m3u8_count st;
         imgs_count := imgs_count st; f4m_params := f4m_params st |}
    else st.

(** [srcs.add(src)]. *)
Definition add_src (src : string) (st : state) : state :=
  {| formats := formats st; subtitles := subtitles st;
     srcs := if seen src (srcs st) then srcs st else app (srcs st) [src];
     rtmp_count := rtmp_count st; http_count := http_count st;
     m3u8_count := m3u8_count st; imgs_count := imgs_count st;
     f4m_params := f4m_params st |}.

(** One turn of [for medium in media]. *)
Definition medium_step (base : string) (st : state) (medium : attrib)
  : state :=
  match aget "src" medium with
  | Some src =>
      if (src =? "") || seen src (srcs st) then st
      else dispatch_medium base (add_src src st) medium src
  | None => st
  end.

(** The body of the loop over [imagestream] elements after
    [srcs.add(src)]. *)
Definition dispatch_imagestream (st : state) (medium : attrib) (src : string)
  : state :=
  let imgs_count := S (imgs_count st) in
  {| formats :=
       app (formats st)
         [ mkdict
             [ ("format_id",
                 VStr ("imagestream-"
                       ++ NilEmpty.string_of_uint (Nat.to_uint imgs_count)));
               ("url", VStr src);
               ("ext", opt_str (mimetype2ext (aget "type" medium)));
               ("acodec", VStr "none");
               ("vcodec", VStr "none");
               ("width", int_or_none (aget "width" medium));
               ("height", int_or_none (aget "height" medium));
               ("format_note", VStr "SMIL storyboards") ] ];
     subtitles := subtitles st;
     srcs := srcs st; rtmp_count := rtmp_count st;
     http_count := http_count st; m3u8_count := m3u8_count st;
     imgs_count := imgs_count; f4m_params := f4m_params st |}.

(** One turn of [for medium in smil.findall('.//imagestream')]. *)
Definition imagestream_step (st : state) (medium : attrib) : state :=
  match aget "src" medium with
  | Some src =>
      if (src =? "") || seen src (srcs st) then st
      else dispatch_imagestream (add_src src st) medium src
  | None => st
  end.

(** The body of the loop of [_parse_smil_subtitles] after
    [urls.append(src)]. *)
Definition add_textstream (subtitles_lang : string) (subs : subtitles_t)
    (textstream : attrib) (src : string) : subtitles_t :=
  let ext :=
    match or_else (or_else (aget "ext" textstream)
                     (mimetype2ext (aget "type" textstream)))
            (Some (determine_ext src)) with
    | Some e => e
    | None => determine_ext src
    end in
  let lang :=
    str_or
      (or_else (or_else (aget "systemLanguage" textstream)
                  (aget "systemLanguageName" textstream))
         (aget "lang" textstream))
      subtitles_lang in
  setdefault_append lang (mkdict [ ("url", VStr src); ("ext", VStr ext) ]) subs.

(** One turn of the loop of [_parse_smil_subtitles]; the state is [urls]
    and [subtitles]. *)
Definition textstream_step (subtitles_lang : string)
    (st : list string * subtitles_t) (textstream : attrib)
  : list string * subtitles_t :=
  let '(urls, subs) := st in
  match aget "src" textstream with
  | Some src =>
      if (src =? "") || seen src urls then st
      else (app urls [src], add_textstream subtitles_lang subs textstream src)
  | None => st
  end.

Definition _parse_smil_subtitles (smil : Smil) (subtitles_lang : string)
  : subtitles_t :=
  snd (fold_left (textstream_step subtitles_lang) (textstreams smil) ([], [])).

Definition initial_state (params : list (string * string)) : state :=
  {| formats := []; subtitles := []; srcs := [];
     rtmp_count := 0; http_count := 0; m3u8_count := 0; imgs_count := 0;
     f4m_params := params |}.

(** The state after the loops over the media and over the image
    streams. *)
Definition media_and_images (smil : Smil) (params : list (string * string))
  : state :=
  let base := base_of (metas smil) in
  let media := app (videos smil) (app (audios smil) (medias smil)) in
  let st := fold_left (medium_step base) media (initial_state params) in
  fold_left imagestream_step (imagestreams smil) st.

Definition _parse_smil_formats_and_subtitles (smil : Smil)
    (params : list (string * string)) : list dict * subtitles_t :=
  let st := media_and_images smil params in
  let smil_subs := _parse_smil_subtitles smil "en" in
  (formats st, _merge_subtitles smil_subs (subtitles st)).

End Parser.

End SMIL.

(** ** Sample inputs

    Concrete manifests, and stand-ins for the external helpers, on which
    the parsers are run in the properties below. *)

Module Samples.

Import Py.
Local Open Scope string_scope.

(** *** F4M *)

Definition f4m_media : F4M.MediaEl :=
  {| F4M.bitrate := Some 800%Z; F4M.width := None; F4M.height := None;
     F4M.href := None; F4M.url := Some "video" |}.

(** A stream-level manifest whose [pv-2.0] element has the text
    [pv_text]. *)
Definition f4m_manifest (pv_text : string) : F4M.Manifest :=
  {| F4M.is_element := true;
     F4M.pv_2_0 := Some (Some pv_text);
     F4M.media_1_0 := [f4m_media];
     F4M.media_2_0 := [];
     F4M.has_bootstrap_info := true;
     F4M.mime_type := None |}.

(** [join_nonempty] on the values met in the samples: the texts of the
    strings, joined by ['-']; numbers are left out. *)
Fixpoint join_strings (values : list value) : string :=
  match values with
  | [] => ""
  | VStr s :: rest =>
      if s =? "" then join_strings rest
      else match join_strings rest with
           | "" => s
           | t => s ++ "-" ++ t
           end
  | _ :: rest => join_strings rest
  end.

Definition parse_f4m (manifest : F4M.Manifest) : result (list dict) :=
  F4M._parse_f4m_formats
    (fun media => media) (fun _ => None) (fun _ => "") join_strings
    (fun _ => []) (fun _ => [])
    None None (Some "hds") true
    manifest "http://example.com/manifest.f4m".

(** *** HLS *)

(** A document from its lines. *)
Definition document (lines : list string) : string :=
  String.concat (String "010" "") lines.



(** The text [s] between double quotes. *)
Definition quoted (s : string) : string :=
  String "034" s ++ String "034" "".

Definition x_media_line : string :=
  "#EXT-X-MEDIA:TYPE=AUDIO,GROUP-ID=" ++ quoted "aud" ++ ",NAME="
    ++ quoted "English" ++ ",URI=" ++ quoted "audio.m3u8".

Definition stream_inf_line : string :=
  "#EXT-X-STREAM-INF:BANDWIDTH=1280000,CODECS=" ++ quoted "avc1.4d401e"
    ++ ",AUDIO=" ++ quoted "aud".

Definition master_playlist : string :=
  document [ "#EXTM3U"; x_media_line; stream_inf_line; "video.m3u8" ].

(** [parse_m3u8_attributes] on the two tags of [master_playlist]. *)
Definition parse_m3u8_attributes (line : string) : attrib :=
  if line =? x_media_line then
    [ ("TYPE", "AUDIO"); ("GROUP-ID", "aud"); ("NAME", "English");
      ("URI", "audio.m3u8") ]
  else if line =? stream_inf_line then
    [ ("BANDWIDTH", "1280000"); ("CODECS", "avc1.4d401e"); ("AUDIO", "aud") ]
  else [].

(** [parse_codecs] on the one codec string of [master_playlist]. *)
Definition parse_codecs (codecs : option string) : dict :=
  match codecs with
  | Some "avc1.4d401e" =>
      [ ("vcodec", VStr "avc1.4d401e"); ("acodec", VStr "none");
        ("dynamic_range", VNone) ]
  | _ => []
  end.

Definition urljoin (base : option string) (url : string) : string :=
  match base with
  | Some b => before_last_slash b ++ "/" ++ url
  | None => url
  end.

Definition parse_m3u8 (hls_split_discontinuity : bool) (m3u8_doc : string)
  : list dict * HLS.subtitles_t :=
  HLS._parse_m3u8_formats_and_subtitles
    (fun _ => false) urljoin (fun doc => "data:application/x-mpegurl;base64,")
    join_strings parse_m3u8_attributes (fun _ => "m3u8")
    (fun _ _ => VNone) parse_codecs (fun _ => "0") (fun _ => None)
    (fun _ => None) (fun _ => None)
    (Some "http://example.com/hls/master.m3u8") (Some "mp4") "m3u8_native"
    None None (Some "hls") false hls_split_discontinuity m3u8_doc.

(** *** DASH *)

(** A timeline whose second entry has an explicit [t] of zero and whose
    third entry has [r = -1]. *)
Definition timeline : list DASH.S_element :=
  [ {| DASH.attr_t := None; DASH.attr_d := Some 10%Z; DASH.attr_r := None |};
    {| DASH.attr_t := Some 0%Z; DASH.attr_d := Some 10%Z;
       DASH.attr_r := None |};
    {| DASH.attr_t := None; DASH.attr_d := Some 10%Z;
       DASH.attr_r := Some (-1)%Z |} ].

(** A timeline of two entries, the first one repeated twice. *)
Definition regular_timeline : list DASH.S_element :=
  [ {| DASH.attr_t := Some 100%Z; DASH.attr_d := Some 10%Z;
       DASH.attr_r := Some 2%Z |};
    {| DASH.attr_t := None; DASH.attr_d := Some 5%Z; DASH.attr_r := None |} ].

Definition media_template : string :=
  DASH.prepare_template "seg-$Time$.m4s" None
    [DASH.Number; DASH.Bandwidth; DASH.Time].

(** Two periods with the same video representation, each with one
    fragment. *)
Definition video (format_id fragment : string) : DASH.Format :=
  {| DASH.attrs :=
       [ ("format_id", VStr format_id); ("ext", VStr "mp4");
         ("height", VInt 720); ("tbr", VFloat 1500);
         ("url", VStr "http://example.com/dash/");
         ("manifest_stream_number", VInt 0) ];
     DASH.fragments := Some [ [ ("path", VStr fragment) ] ] |}.

Definition periods : list DASH.Period :=
  [ {| DASH.formats := [video "video-p0" "p0/seg-1.m4s"];
       DASH.subtitles := [] |};
    {| DASH.formats := [video "video-p1" "p1/seg-1.m4s"];
       DASH.subtitles := [] |} ].

(** What [_merge_mpd_periods] returns for [periods]. *)
Definition merged_video : DASH.Format :=
  {| DASH.attrs :=
       [ ("format_id", VStr "video-p0"); ("ext", VStr "mp4");
         ("height", VInt 720); ("tbr", VFloat 1500);
         ("url", VStr "http://example.com/dash/");
         ("manifest_stream_number", VInt 0);
         ("is_dash_periods", VBool true) ];
     DASH.fragments :=
       Some [ [ ("path", VStr "p0/seg-1.m4s") ];
              [ ("path", VStr "p1/seg-1.m4s") ] ] |}.

(** Two formats whose attributes have different names and the same
    values. *)
Definition by_url : DASH.Format :=
  {| DASH.attrs := [ ("format_id", VStr "a"); ("url", VStr "x") ];
     DASH.fragments := Some [ [ ("path", VStr "a-1.m4s") ] ] |}.

Definition by_manifest_url : DASH.Format :=
  {| DASH.attrs := [ ("format_id", VStr "b"); ("manifest_url", VStr "x") ];
     DASH.fragments := Some [ [ ("path", VStr "b-1.m4s") ] ] |}.

(** *** Smooth Streaming *)

(** [str(n)] for the numbers of the samples: an [int], or a [float]
    with an integer value. *)
Definition str_num (n : ISM.num) : string :=
  match n with
  | ISM.NInt z => NilEmpty.string_of_int (Z.to_int z)
  | ISM.NFloat q => NilEmpty.string_of_int (Z.to_int (Qnum q)) ++ ".0"
  end.

Definition fragment_url (time : ISM.num) : string :=
  "QualityLevels(1000)/Fragments(video=" ++ str_num time ++ ")".

(** A stream of two fragments of two seconds each, the first without
    [d]; the [Duration] of the manifest is 40000000. *)
Definition stream_fragments : list ISM.c_element :=
  [ {| ISM.c_t := Some 0%Z; ISM.c_d := None; ISM.c_r := None;
       ISM.c_children := [] |};
    {| ISM.c_t := Some 20000000%Z; ISM.c_d := Some 20000000%Z;
       ISM.c_r := None; ISM.c_children := [] |} ].

(** *** SMIL *)

(** A document in which an image stream and a text stream have the same
    [src]. *)
Definition smil : SMIL.Smil :=
  {| SMIL.metas := [];
     SMIL.videos := [];
     SMIL.audios := [];
     SMIL.medias := [];
     SMIL.imagestreams :=
       [ [ ("src", "http://example.com/track.vtt"); ("type", "text/vtt") ] ];
     SMIL.textstreams :=
       [ [ ("src", "http://example.com/track.vtt"); ("ext", "vtt");
           ("systemLanguage", "fr") ] ] |}.

Definition parse_smil (smil : SMIL.Smil) : list dict * SMIL.subtitles_t :=
  SMIL._parse_smil_formats_and_subtitles
    (fun _ => None) (fun _ => "") (fun _ => None) (fun _ _ => VNone)
    (fun _ => VNone) (fun _ => None) (fun base url => base ++ url)
    (fun _ => "") (fun _ => "0") (fun _ => true)
    (fun _ _ => ([], [])) (fun _ => []) (fun _ => ([], []))
    (fun _ => ([], []))
    "http://example.com/video.smil" None
    smil [].

End Samples.

(** * Properties *)

Unset Implicit Arguments.

(** ** Facts about strings and dictionaries *)

Module PyFacts.

Import Py.
Local Open Scope string_scope.

Lemma prefix_nil (s : string) : prefix "" s = true.
Proof. now destruct s. Qed.

Lemma prefix_cons (a b : ascii) (p s : string) :
  prefix (String a p) (String b s) = Ascii.eqb a b && prefix p s.
Proof.
  change (prefix (String a p) (String b s))
    with (match ascii_dec a b with
          | left _ => prefix p s
          | right _ => false
          end).
  destruct (ascii_dec a b) as [->|ne].
  - now rewrite Ascii.eqb_refl.
  - apply Ascii.eqb_neq in ne. now rewrite ne.
Qed.




Lemma lookup_setitem_same (k : string) (v : value) (d : dict) :
  lookup k (setitem k v d) = Some v.
Proof.
  induction d as [|[k' v'] d IH]; simpl.
  - now rewrite String.eqb_refl.
  - destruct (k' =? k) eqn:E; simpl; rewrite E; [reflexivity | exact IH].
Qed.

Lemma lookup_setitem_other (k k' : string) (v : value) (d : dict) :
  k' <> k -> lookup k (setitem k' v d) = lookup k d.
Proof.
  intros Hne. induction d as [|[k0 v0] d IH]; simpl.
  - destruct (k' =? k) eqn:E; [|reflexivity].
    apply String.eqb_eq in E. contradiction.
  - destruct (k0 =? k') eqn:E0; simpl.
    + apply String.eqb_eq in E0. subst k0.
      destruct (k' =? k) eqn:E; [|reflexivity].
      apply String.eqb_eq in E. contradiction.
    + destruct (k0 =? k); [reflexivity | exact IH].
Qed.

Lemma dget_setitem_same (k : string) (v : value) (d : dict) :
  dget k (setitem k v d) = v.
Proof. unfold dget. now rewrite lookup_setitem_same. Qed.

Lemma dget_setitem_other (k k' : string) (v : value) (d : dict) :
  k' <> k -> dget k (setitem k' v d) = dget k d.
Proof. intros H. unfold dget. now rewrite lookup_setitem_other. Qed.

Lemma lookup_delitem_other (k k' : string) (d : dict) :
  k' <> k -> lookup k (delitem k' d) = lookup k d.
Proof.
  intros Hne. induction d as [|[k0 v0] d IH]; simpl; [reflexivity|].
  destruct (k0 =? k') eqn:E0; simpl.
  - apply String.eqb_eq in E0. subst k0.
    destruct (k' =? k) eqn:E; [|reflexivity].
    apply String.eqb_eq in E. contradiction.
  - destruct (k0 =? k); [reflexivity | exact IH].
Qed.

(** The last binding of [k] in a list of items. *)
Fixpoint last_binding (k : string) (e : dict) : option value :=
  match e with
  | [] => None
  | (k', v) :: e' =>
      match last_binding k e' with
      | Some w => Some w
      | None => if k' =? k then Some v else None
      end
  end.

Lemma lookup_update (k : string) (e d : dict) :
  lookup k (update d e) =
  match last_binding k e with
  | Some v => Some v
  | None => lookup k d
  end.
Proof.
  unfold update. revert d.
  induction e as [|[k' v] e IH]; intros d; simpl; [reflexivity|].
  rewrite IH. destruct (last_binding k e); [reflexivity|].
  destruct (k' =? k) eqn:E.
  - apply String.eqb_eq in E. subst. apply lookup_setitem_same.
  - apply lookup_setitem_other. intros ->. now rewrite String.eqb_refl in E.
Qed.

Lemma fold_left_cons {A B : Type} (f : A -> B -> A) (b : B) (l : list B)
    (a : A) :
  fold_left f (b :: l) a = fold_left f l (f a b).
Proof. reflexivity. Qed.

End PyFacts.

(** ** F4M *)

Module F4MFacts.

Import Py F4M.
Local Open Scope string_scope.

(** C9, as the code has it: when the manifest has a [pv-2.0] element
    whose text contains a [';'] and whose challenge, the text before the
    first [';'], is not blank, [_parse_f4m_formats] returns the empty
    list of formats. *)
Theorem player_verification_aborts
    (remove_encrypted_media : list MediaEl -> list MediaEl)
    (get_base_url : Manifest -> option string)
    (determine_ext : string -> string)
    (join_nonempty : list value -> string)
    (extract_f4m extract_m3u8 : string -> list dict)
    (preference quality : option Z) (f4m_id : option string) (fatal : bool)
    (manifest : Manifest) (manifest_url text : string) :
  is_element manifest = true ->
  pv_2_0 manifest = Some (Some text) ->
  has_char ";" text = true ->
  strip (before_first ";" text) <> "" ->
  _parse_f4m_formats remove_encrypted_media get_base_url determine_ext
    join_nonempty extract_f4m extract_m3u8 preference quality f4m_id fatal
    manifest manifest_url = Ok [].
Proof.
  intros Hel Hpv Hsemi Hchal.
  unfold _parse_f4m_formats. rewrite Hel, Hpv. simpl.
  unfold has_player_verification_challenge. rewrite Hsemi. simpl.
  destruct (strip (before_first ";" text) =? "") eqn:E.
  - apply String.eqb_eq in E. contradiction.
  - reflexivity.
Qed.

Lemma player_verification_aborts_witness :
  Samples.parse_f4m (Samples.f4m_manifest "Zm9v;YmFy") = Ok [].
Proof.
  unfold Samples.parse_f4m.
  apply player_verification_aborts with (text := "Zm9v;YmFy").
  - reflexivity.
  - reflexivity.
  - reflexivity.
  - vm_compute. discriminate.
Defined.

(** C9, as the specification states it, fails: a [pv-2.0] element with
    the text ["Zm9v"], which is not empty but has no [';'], does not stop
    the parser, which returns the format of the media entry. *)
Lemma player_verification_without_separator :
  pv_2_0 (Samples.f4m_manifest "Zm9v") = Some (Some "Zm9v")
  /\ "Zm9v" <> ""
  /\ Samples.parse_f4m (Samples.f4m_manifest "Zm9v")
     = Ok [ [ ("format_id", VStr "hds");
              ("url", VStr "http://example.com/manifest.f4m");
              ("manifest_url", VStr "http://example.com/manifest.f4m");
              ("ext", VStr "flv"); ("protocol", VStr "f4m");
              ("tbr", VInt 800); ("width", VNone); ("height", VNone);
              ("vcodec", VNone); ("preference", VNone); ("quality", VNone) ] ]
  /\ Samples.parse_f4m (Samples.f4m_manifest "Zm9v") <> Ok [].
Proof.
  repeat split; try discriminate; reflexivity.
Qed.

End F4MFacts.

(** ** HLS *)

Module HLSFacts.

Import Py HLS PyFacts.
Local Open Scope string_scope.

Section Facts.

Variable _has_drm : string -> bool.
Variable urljoin : option string -> string -> string.
Variable encode_data_uri : string -> string.
Variable join_nonempty : list value -> string.
Variable parse_m3u8_attributes : string -> attrib.
Variable determine_ext : string -> string.
Variable float_or_none : option string -> Z -> value.
Variable parse_codecs : option string -> dict.
Variable format_d : value -> string.
Variable search_resolution : string -> option (Z * Z).
Variable search_usp_bitrates : string -> option (option string * option string).
Variable _download_webpage : string -> option string.
Variable m3u8_url : option string.
Variable ext : option string.
Variable entry_protocol : string.
Variable preference quality : option Z.
Variable m3u8_id : option string.
Variable live : bool.
Variable hls_split_discontinuity : bool.

Local Abbreviation parse :=
  (_parse_m3u8_formats_and_subtitles _has_drm urljoin encode_data_uri
     join_nonempty parse_m3u8_attributes determine_ext float_or_none
     parse_codecs format_d search_resolution search_usp_bitrates
     _download_webpage m3u8_url ext entry_protocol preference quality m3u8_id
     live hls_split_discontinuity).

Local Abbreviation media_formats_of :=
  (media_playlist_formats _has_drm encode_data_uri join_nonempty
     _download_webpage m3u8_url ext entry_protocol preference quality m3u8_id
     hls_split_discontinuity).

Lemma index_range_length (n : nat) : List.length (index_range n) = n.
Proof. unfold index_range. now rewrite length_map, length_seq. Qed.















Local Abbreviation variant_format_of :=
  (variant_format join_nonempty float_or_none parse_codecs format_d
     search_resolution search_usp_bitrates m3u8_url ext entry_protocol
     preference quality m3u8_id live).

Local Abbreviation variant_formats_of :=
  (variant_formats urljoin join_nonempty float_or_none parse_codecs format_d
     search_resolution search_usp_bitrates _download_webpage m3u8_url ext
     entry_protocol preference quality m3u8_id live hls_split_discontinuity).

Local Abbreviation stream_step_of :=
  (stream_step urljoin join_nonempty parse_m3u8_attributes float_or_none
     parse_codecs format_d search_resolution search_usp_bitrates
     _download_webpage m3u8_url ext entry_protocol preference quality m3u8_id
     live hls_split_discontinuity).

Local Abbreviation media_pass_of :=
  (media_pass urljoin join_nonempty parse_m3u8_attributes determine_ext
     _download_webpage m3u8_url ext entry_protocol preference quality m3u8_id
     hls_split_discontinuity).

(** The condition of the audio linkage: the tag names an [AUDIO] group,
    its [CODECS] give a video codec, and the first rendition of the
    group has a [URI]. *)
Definition audio_in_separate_rendition (groups : groups_t)
    (last_stream_inf : attrib) : Prop :=
  exists audio_group_id vcodec rendition others,
    aget "AUDIO" last_stream_inf = Some audio_group_id
    /\ audio_group_id <> ""
    /\ dget "vcodec" (mkdict (parse_codecs (aget "CODECS" last_stream_inf)))
       = VStr vcodec
    /\ vcodec <> "none"
    /\ lget audio_group_id groups = Some (rendition :: others)
    /\ nonempty (aget "URI" rendition) = true.

Lemma with_codecs_acodec (groups : groups_t) (last_stream_inf : attrib)
    (f : dict) :
  audio_in_separate_rendition groups last_stream_inf ->
  dget "acodec" (with_codecs parse_codecs groups last_stream_inf f)
  = VStr "none".
Proof.
  intros (g & v & rendition & others & Ha & Hg & Hv & Hvn & Hl & Hu).
  unfold with_codecs.
  set (codecs := parse_codecs (aget "CODECS" last_stream_inf)) in *.
  assert (Hlast : last_binding "vcodec" codecs = Some (VStr v)).
  { unfold dget, mkdict in Hv. rewrite lookup_update in Hv. simpl in Hv.
    destruct (last_binding "vcodec" codecs); [now subst | discriminate]. }
  assert (Hsep : audio_is_separate groups last_stream_inf codecs
                   (update f codecs) = true).
  { assert (Hvideo : is_none_codec (dget "vcodec" (update f codecs)) = false).
    { unfold dget. rewrite lookup_update, Hlast. simpl.
      destruct (v =? "none") eqn:E'; [|reflexivity].
      apply String.eqb_eq in E'. contradiction. }
    unfold audio_is_separate. rewrite Ha, Hl, Hu, Hvideo. simpl.
    destruct (g =? "") eqn:E; [apply String.eqb_eq in E; contradiction|].
    destruct codecs; [discriminate Hlast | reflexivity]. }
  rewrite Hsep.
  match goal with
  | |- context [if ?c then _ else _] => destruct c
  end.
  - apply dget_setitem_same.
  - rewrite dget_setitem_other by discriminate. apply dget_setitem_same.
Qed.

Lemma progressive_format_acodec (f : dict) (progressive_uri : string) :
  dget "acodec" (progressive_format f progressive_uri) = dget "acodec" f.
Proof.
  unfold progressive_format, dget. rewrite lookup_update. simpl.
  now rewrite lookup_delitem_other by discriminate.
Qed.

Local Abbreviation variant_step_of :=
  (variant_step join_nonempty float_or_none parse_codecs format_d
     search_resolution search_usp_bitrates m3u8_url ext entry_protocol
     preference quality m3u8_id live).

(** What one turn of the loop over the indices appends. *)
Definition step_added (has_drm : bool) (groups : groups_t)
    (last_stream_inf : attrib) (tbr : value) (manifest_url : string)
    (n_formats : nat) (idx : value) : list dict :=
  let f := variant_format_of has_drm groups last_stream_inf tbr manifest_url
             n_formats idx in
  f :: match aget "PROGRESSIVE-URI" last_stream_inf with
       | Some progressive_uri =>
           if progressive_uri =? "" then []
           else [progressive_format f progressive_uri]
       | None => []
       end.

Lemma variant_step_appends (has_drm : bool) (groups : groups_t)
    (last_stream_inf : attrib) (tbr : value) (manifest_url : string)
    (formats : list dict) (idx : value) :
  variant_step_of has_drm groups last_stream_inf tbr manifest_url formats idx
  = (formats ++ step_added has_drm groups last_stream_inf tbr manifest_url
                  (List.length formats) idx)%list.
Proof.
  unfold variant_step, step_added.
  destruct (aget "PROGRESSIVE-URI" last_stream_inf) as [uri|];
    [destruct (uri =? "")|]; rewrite <- ?app_assoc; reflexivity.
Qed.

Lemma variant_steps_append (has_drm : bool) (groups : groups_t)
    (last_stream_inf : attrib) (tbr : value) (manifest_url : string)
    (P : dict -> Prop) :
  (forall n idx f,
     In f (step_added has_drm groups last_stream_inf tbr manifest_url n idx)
     -> P f) ->
  forall idxs formats,
  exists added,
    fold_left
      (variant_step_of has_drm groups last_stream_inf tbr manifest_url)
      idxs formats
    = (formats ++ added)%list
    /\ (forall f, In f added -> P f)
    /\ (idxs <> [] -> added <> []).
Proof.
  intros HP. induction idxs as [|idx idxs IH]; intros formats.
  - exists []. rewrite app_nil_r. repeat split; [intros f []|congruence].
  - simpl. rewrite variant_step_appends.
    destruct (IH (formats ++ step_added has_drm groups last_stream_inf tbr
                               manifest_url (List.length formats) idx)%list)
      as (added & Heq & Hall & _).
    exists (step_added has_drm groups last_stream_inf tbr manifest_url
              (List.length formats) idx ++ added)%list.
    rewrite Heq, <- app_assoc. repeat split.
    + intros f Hin. apply in_app_or in Hin. destruct Hin as [Hin|Hin].
      * now apply HP in Hin.
      * now apply Hall.
    + intros _. unfold step_added. discriminate.
Qed.

(** What one variant appends to [formats]. *)
Lemma variant_formats_appends (has_drm : bool) (groups : groups_t)
    (last_stream_inf : attrib) (line : string) (formats : list dict) :
  audio_in_separate_rendition groups last_stream_inf ->
  exists added,
    variant_formats_of has_drm groups last_stream_inf line formats
    = (formats ++ added)%list
    /\ (forall f, In f added -> dget "acodec" f = VStr "none")
    /\ (hls_split_discontinuity = false -> added <> []).
Proof.
  intros Hsep. unfold variant_formats.
  set (tbr := float_or_none _ 1000).
  set (manifest_url := format_url urljoin m3u8_url (strip line)).
  destruct (variant_steps_append has_drm groups last_stream_inf tbr
              manifest_url (fun f => dget "acodec" f = VStr "none"))
    with (idxs := _extract_m3u8_playlist_indices _download_webpage
                    hls_split_discontinuity (Some manifest_url) None)
         (formats := formats)
    as (added & Heq & Hall & Hne).
  { intros n idx f. unfold step_added.
    assert (Hf : dget "acodec"
                   (variant_format_of has_drm groups last_stream_inf tbr
                      manifest_url n idx) = VStr "none")
      by (apply with_codecs_acodec; exact Hsep).
    intros [<-|Hin]; [exact Hf|].
    destruct (aget "PROGRESSIVE-URI" last_stream_inf) as [uri|];
      [destruct (uri =? "")|]; simpl in Hin; try contradiction.
    destruct Hin as [<-|[]]. now rewrite progressive_format_acodec. }
  exists added. repeat split; [exact Heq | exact Hall |].
  intros Hsplit. apply Hne. unfold _extract_m3u8_playlist_indices.
  rewrite Hsplit. discriminate.
Qed.

(** The second loop only appends to [formats]. *)
Lemma stream_steps_append (has_drm : bool) (groups : groups_t)
    (lines : list string) (st : attrib * list dict) :
  exists added,
    snd (fold_left (stream_step_of has_drm groups) lines st)
    = (snd st ++ added)%list.
Proof.
  revert st. induction lines as [|line lines IH]; intros [lsi fs]; simpl.
  - exists []. now rewrite app_nil_r.
  - destruct (startswith "#EXT-X-STREAM-INF:" line).
    + apply (IH (_, fs)).
    + destruct (startswith "#" line || (strip line =? "")).
      * apply (IH (lsi, fs)).
      * destruct (IH ([], variant_formats_of has_drm groups lsi line fs))
          as (added & Heq).
        rewrite Heq. simpl. unfold variant_formats.
        destruct (variant_steps_append has_drm groups lsi
                    (float_or_none
                       (or_else (aget "AVERAGE-BANDWIDTH" lsi)
                          (aget "BANDWIDTH" lsi)) 1000)
                    (format_url urljoin m3u8_url (strip line))
                    (fun _ => True))
          with (idxs := _extract_m3u8_playlist_indices _download_webpage
                          hls_split_discontinuity
                          (Some (format_url urljoin m3u8_url (strip line)))
                          None)
               (formats := fs)
          as (a & -> & _); [trivial|].
        rewrite <- app_assoc. eexists; reflexivity.
Qed.

(** Lines that are comments or blank, and are not [#EXT-X-STREAM-INF]
    tags, leave the state of the second loop as it is. *)
Definition skipped_line (line : string) : Prop :=
  startswith "#EXT-X-STREAM-INF:" line = false
  /\ (startswith "#" line || (strip line =? "")) = true.

Lemma stream_steps_skip (has_drm : bool) (groups : groups_t)
    (lines : list string) (st : attrib * list dict) :
  Forall skipped_line lines ->
  fold_left (stream_step_of has_drm groups) lines st = st.
Proof.
  intros H. revert st. induction H as [|line lines [H1 H2] _ IH]; intros st.
  - reflexivity.
  - simpl. destruct st as [lsi fs]. unfold stream_step at 2.
    rewrite H1, H2. apply IH.
Qed.

Lemma stream_step_tag (has_drm : bool) (groups : groups_t)
    (st : attrib * list dict) (line : string) :
  startswith "#EXT-X-STREAM-INF:" line = true ->
  stream_step_of has_drm groups st line
  = (parse_m3u8_attributes line, snd st).
Proof. intros H. destruct st. unfold stream_step. now rewrite H. Qed.

Lemma stream_step_uri (has_drm : bool) (groups : groups_t)
    (last_stream_inf : attrib) (formats : list dict) (line : string) :
  startswith "#" line = false ->
  strip line <> "" ->
  stream_step_of has_drm groups (last_stream_inf, formats) line
  = ([], variant_formats_of has_drm groups last_stream_inf line formats).
Proof.
  intros Huri Hblank. unfold stream_step.
  assert (Hnot : startswith "#EXT-X-STREAM-INF:" line = false).
  { destruct line as [|c u]; [reflexivity|].
    unfold startswith in *. rewrite prefix_cons in *.
    rewrite prefix_nil, andb_true_r in Huri. now rewrite Huri. }
  rewrite Hnot, Huri.
  destruct (strip line =? "") eqn:E; [|reflexivity].
  apply String.eqb_eq in E. contradiction.
Qed.

(** C6: in a master playlist, let an [#EXT-X-STREAM-INF] tag be followed,
    after comments and blank lines only, by the line of its URI; when
    the tag has a [CODECS] attribute that gives a video codec and an
    [AUDIO] attribute that names a rendition group whose first rendition
    has a [URI], every format that the URI line adds has [acodec] equal
    to ["none"], and without discontinuity splitting there is such a
    format. *)
Theorem video_with_separate_audio_has_no_acodec
    (m3u8_doc : string) (before_tag between after_uri : list string)
    (tag uri_line : string) :
  contains "#EXT-X-TARGETDURATION" m3u8_doc = false ->
  splitlines m3u8_doc
  = (before_tag ++ tag :: between ++ uri_line :: after_uri)%list ->
  startswith "#EXT-X-STREAM-INF:" tag = true ->
  Forall skipped_line between ->
  startswith "#" uri_line = false ->
  strip uri_line <> "" ->
  audio_in_separate_rendition
    (groups (media_pass_of (_has_drm m3u8_doc) (splitlines m3u8_doc)))
    (parse_m3u8_attributes tag) ->
  exists formats_before added formats_after,
    fst (parse m3u8_doc)
    = (formats_before ++ added ++ formats_after)%list
    /\ variant_formats_of (_has_drm m3u8_doc)
         (groups (media_pass_of (_has_drm m3u8_doc) (splitlines m3u8_doc)))
         (parse_m3u8_attributes tag) uri_line formats_before
       = (formats_before ++ added)%list
    /\ (forall f, In f added -> dget "acodec" f = VStr "none")
    /\ (hls_split_discontinuity = false -> added <> []).
Proof.
  intros Hmaster Hlines Htag Hbetween Huri Hblank Hsep.
  unfold _parse_m3u8_formats_and_subtitles, classify. rewrite Hmaster.
  unfold master_playlist. simpl fst.
  set (has_drm := _has_drm m3u8_doc) in *.
  set (st := media_pass_of has_drm (splitlines m3u8_doc)) in *.
  replace (fold_left (stream_step_of has_drm (groups st)) (splitlines m3u8_doc))
    with (fold_left (stream_step_of has_drm (groups st))
            (before_tag ++ tag :: between ++ uri_line :: after_uri)%list)
    by now rewrite Hlines.
  rewrite fold_left_app, fold_left_cons, fold_left_app, fold_left_cons.
  rewrite (stream_step_tag _ _ _ _ Htag).
  rewrite (stream_steps_skip _ _ _ _ Hbetween).
  rewrite (stream_step_uri _ _ _ _ _ Huri Hblank).
  set (formats_before :=
         snd (fold_left (stream_step_of has_drm (groups st)) before_tag
                ([], media_formats st))).
  destruct (variant_formats_appends has_drm _ _ uri_line formats_before Hsep)
    as (added & Hadd & Hall & Hne).
  destruct (stream_steps_append has_drm (groups st) after_uri
              ([], variant_formats_of has_drm (groups st)
                     (parse_m3u8_attributes tag) uri_line formats_before))
    as (formats_after & Hafter).
  exists formats_before, added, formats_after.
  rewrite Hafter. simpl snd. rewrite Hadd, <- app_assoc.
  repeat split; assumption.
Qed.

End Facts.



Lemma video_with_separate_audio_has_no_acodec_witness :
  exists formats_before added formats_after,
    fst (Samples.parse_m3u8 false Samples.master_playlist)
    = (formats_before ++ added ++ formats_after)%list
    /\ (forall f, In f added -> dget "acodec" f = VStr "none")
    /\ added <> [].
Proof.
  unfold Samples.parse_m3u8.
  destruct (video_with_separate_audio_has_no_acodec
              (fun _ => false) Samples.urljoin
              (fun doc => "data:application/x-mpegurl;base64,")
              Samples.join_strings Samples.parse_m3u8_attributes
              (fun _ => "m3u8") (fun _ _ => VNone) Samples.parse_codecs
              (fun _ => "0") (fun _ => None) (fun _ => None) (fun _ => None)
              (Some "http://example.com/hls/master.m3u8") (Some "mp4")
              "m3u8_native" None None (Some "hls") false false
              Samples.master_playlist
              ["#EXTM3U"; Samples.x_media_line] [] []
              Samples.stream_inf_line "video.m3u8")
    as (formats_before & added & formats_after & Hparse & _ & Hall & Hne).
  - reflexivity.
  - reflexivity.
  - reflexivity.
  - constructor.
  - reflexivity.
  - vm_compute. discriminate.
  - exists "aud", "avc1.4d401e",
      [ ("TYPE", "AUDIO"); ("GROUP-ID", "aud"); ("NAME", "English");
        ("URI", "audio.m3u8") ], [].
    repeat split; try reflexivity; vm_compute; discriminate.
  - exists formats_before, added, formats_after.
    split; [exact Hparse|]. split; [exact Hall|]. now apply Hne.
Defined.

End HLSFacts.

(** ** DASH: segment timelines *)

Module TimelineFacts.

Import Py DASH PyFacts.
Local Open Scope string_scope.

Lemma mapM_app {A B : Type} (f : A -> result B) (l1 l2 : list A) :
  mapM f (l1 ++ l2)
  = bind (mapM f l1) (fun a => bind (mapM f l2) (fun b => Ok (a ++ b)%list)).
Proof.
  induction l1 as [|x l1 IH]; simpl.
  - destruct (mapM f l2); reflexivity.
  - destruct (f x); simpl; [|reflexivity]. rewrite IH.
    destruct (mapM f l1); simpl; [|reflexivity].
    destruct (mapM f l2); reflexivity.
Qed.

Lemma mapM_length {A B : Type} (f : A -> result B) (l : list A) (out : list B) :
  mapM f l = Ok out -> List.length out = List.length l.
Proof.
  revert out. induction l as [|x l IH]; intros out; simpl.
  - intros [= <-]. reflexivity.
  - destruct (f x); simpl; [|discriminate].
    destruct (mapM f l) as [bs|]; simpl; [|discriminate].
    intros [= <-]. simpl. f_equal. now apply IH.
Qed.

Section Facts.

Variable media_template : string.
Variable bandwidth : option Z.
Variable timescale : Z.
Variable start_number : Z.

(** *** The timeline of a template, in the words of the specification *)

(** The time of the first segment of an entry: its [t] when that is
    given and not zero, else the time reached so far. *)
Definition first_time (time : Z) (s : s_entry) : Z :=
  if (t s =? 0)%Z then time else t s.

(** The number of segments of an entry in the template branch. *)
Definition repetitions (s : s_entry) : nat := S (Z.to_nat (r s)).

(** The segments of an entry: time, number and duration in ticks. *)
Definition entry_segments (time number : Z) (s : s_entry)
  : list (Z * Z * Z) :=
  map (fun k => ((first_time time s + Z.of_nat k * d s)%Z,
                 (number + Z.of_nat k)%Z, d s))
    (seq 0 (repetitions s)).

Definition time_after (time : Z) (s : s_entry) : Z :=
  (first_time time s + Z.of_nat (repetitions s) * d s)%Z.

Definition number_after (number : Z) (s : s_entry) : Z :=
  (number + Z.of_nat (repetitions s))%Z.

Fixpoint timeline_segments (time number : Z) (ss : list s_entry)
  : list (Z * Z * Z) :=
  match ss with
  | [] => []
  | s :: ss' =>
      entry_segments time number s
        ++ timeline_segments (time_after time s) (number_after number s) ss'
  end.

(** [d / timescale] as a float. *)
Definition quotient (segment_d : Z) : value :=
  VFloat (Qred (inject_Z segment_d / inject_Z timescale)%Q).

(** The fragment of a segment as [add_segment_url] makes it. *)
Definition segment_fragment (seg : Z * Z * Z) : result dict :=
  let '(time, number, segment_d) := seg in
  segment_url <-
    py_format media_template
      [ ("Time", VInt time); ("Bandwidth", opt_int bandwidth);
        ("Number", VInt number) ] ;;
  duration <- float_or_none segment_d timescale ;;
  Ok [ (location_key media_template, VStr segment_url);
       ("duration", duration) ].

(** The fragment of a segment: the expanded template, and
    [d / timescale] as its duration. *)
Definition timed_fragment (seg : Z * Z * Z) : result dict :=
  let '(time, number, segment_d) := seg in
  segment_url <-
    py_format media_template
      [ ("Time", VInt time); ("Bandwidth", opt_int bandwidth);
        ("Number", VInt number) ] ;;
  Ok [ (location_key media_template, VStr segment_url);
       ("duration", quotient segment_d) ].

Lemma float_or_none_quotient (segment_d : Z) :
  timescale <> 0%Z ->
  float_or_none segment_d timescale = Ok (quotient segment_d).
Proof.
  intros H. unfold float_or_none, quotient.
  apply Z.eqb_neq in H. now rewrite H.
Qed.

Lemma segment_fragment_timed (seg : Z * Z * Z) :
  timescale <> 0%Z -> segment_fragment seg = timed_fragment seg.
Proof.
  intros H. destruct seg as [[time number] segment_d].
  unfold segment_fragment, timed_fragment.
  now rewrite (float_or_none_quotient segment_d H).
Qed.

Lemma mapM_timed (segs : list (Z * Z * Z)) :
  timescale <> 0%Z -> mapM segment_fragment segs = mapM timed_fragment segs.
Proof.
  intros H. induction segs as [|seg segs IH]; [reflexivity|].
  cbn [mapM]. now rewrite (segment_fragment_timed seg H), IH.
Qed.

Local Abbreviation add_segment_url_of :=
  (add_segment_url media_template bandwidth timescale).
Local Abbreviation repeat_segments_of :=
  (repeat_segments media_template bandwidth timescale).
Local Abbreviation timeline_step_of :=
  (timeline_step media_template bandwidth timescale).

Definition advance (c : cursor) (frs : list dict) (time number : Z) : cursor :=
  {| fragments_so_far := (fragments_so_far c ++ frs)%list;
     segment_time := time;
     segment_number := number |}.

Lemma add_segment_url_spec (segment_d : Z) (c : cursor) :
  add_segment_url_of segment_d c
  = bind (segment_fragment (segment_time c, segment_number c, segment_d))
      (fun fr => Ok (advance c [fr] (segment_time c) (segment_number c + 1)%Z)).
Proof.
  unfold add_segment_url, segment_fragment, advance.
  destruct (py_format _ _); [|reflexivity]. cbn [bind].
  destruct (float_or_none _ _); reflexivity.
Qed.

Lemma repeat_segments_spec (n : nat) (segment_d : Z) (c : cursor) :
  repeat_segments_of n segment_d c
  = bind (mapM segment_fragment
            (map (fun k => ((segment_time c + Z.of_nat (S k) * segment_d)%Z,
                            (segment_number c + Z.of_nat k)%Z, segment_d))
               (seq 0 n)))
      (fun frs =>
         Ok (advance c frs (segment_time c + Z.of_nat n * segment_d)%Z
               (segment_number c + Z.of_nat n)%Z)).
Proof.
  revert c. induction n as [|n IH]; intros c.
  - simpl. unfold advance. destruct c; simpl.
    rewrite app_nil_r. do 2 f_equal; lia.
  - cbn [repeat_segments]. rewrite add_segment_url_spec.
    cbn [segment_time segment_number fragments_so_far].
    cbn [seq]. rewrite <- seq_shift. cbn [map mapM]. rewrite map_map.
    replace (segment_time c + Z.of_nat 1 * segment_d)%Z
      with (segment_time c + segment_d)%Z by lia.
    replace (segment_number c + Z.of_nat 0)%Z with (segment_number c) by lia.
    destruct (segment_fragment (_, _, _)) as [fr|e]; [|reflexivity].
    cbn [bind]. rewrite IH. unfold advance.
    cbn [segment_time segment_number fragments_so_far].
    erewrite map_ext with (g := fun k =>
      ((segment_time c + Z.of_nat (S (S k)) * segment_d)%Z,
       (segment_number c + Z.of_nat (S k))%Z, segment_d)).
    2:{ intros k. unfold advance.
        cbn [segment_time segment_number fragments_so_far].
        apply f_equal2; [apply f_equal2; lia | reflexivity]. }
    destruct (mapM segment_fragment _) as [frs|e]; [|reflexivity].
    cbn [bind]. unfold advance. cbn [fragments_so_far].
    rewrite <- app_assoc. do 2 f_equal; lia.
Qed.

Lemma timeline_step_spec (c : cursor) (s : s_entry) :
  timeline_step_of c s
  = bind (mapM segment_fragment
            (entry_segments (segment_time c) (segment_number c) s))
      (fun frs =>
         Ok (advance c frs (time_after (segment_time c) s)
               (number_after (segment_number c) s))).
Proof.
  unfold timeline_step, entry_segments, repetitions, time_after, number_after.
  rewrite add_segment_url_spec.
  cbn [segment_time segment_number fragments_so_far].
  fold (first_time (segment_time c) s).
  cbn [seq]. rewrite <- seq_shift. cbn [map mapM]. rewrite map_map.
  replace (first_time (segment_time c) s + Z.of_nat 0 * d s)%Z
    with (first_time (segment_time c) s) by lia.
  replace (segment_number c + Z.of_nat 0)%Z with (segment_number c) by lia.
  destruct (segment_fragment (_, _, _)) as [fr|e]; [|reflexivity].
  cbn [bind]. rewrite repeat_segments_spec.
  unfold advance.
  cbn [segment_time segment_number fragments_so_far].
  erewrite map_ext with (g := fun k =>
    ((first_time (segment_time c) s + Z.of_nat (S k) * d s)%Z,
     (segment_number c + Z.of_nat (S k))%Z, d s)).
  2:{ intros k. unfold advance.
        cbn [segment_time segment_number fragments_so_far].
        apply f_equal2; [apply f_equal2; lia | reflexivity]. }
  destruct (mapM segment_fragment _) as [frs|e]; [|reflexivity].
  cbn [bind]. unfold advance, repetitions.
  cbn [fragments_so_far segment_time segment_number].
  rewrite <- app_assoc. do 2 f_equal; lia.
Qed.

Lemma timeline_fold_spec (ss : list s_entry) (c : cursor) :
  bind (foldM timeline_step_of ss c) (fun c' => Ok (fragments_so_far c'))
  = bind (mapM segment_fragment
            (timeline_segments (segment_time c) (segment_number c) ss))
      (fun frs => Ok (fragments_so_far c ++ frs)%list).
Proof.
  revert c. induction ss as [|s ss IH]; intros c.
  - simpl. now rewrite app_nil_r.
  - cbn [foldM timeline_segments]. rewrite timeline_step_spec, mapM_app.
    destruct (mapM segment_fragment (entry_segments _ _ s)) as [frs|e];
      [|reflexivity].
    cbn [bind]. rewrite IH. unfold advance.
    cbn [segment_time segment_number fragments_so_far].
    destruct (mapM segment_fragment _) as [frs'|e]; [|reflexivity].
    cbn [bind]. now rewrite app_assoc.
Qed.

(** *** The explicit list of segment URLs with a timeline *)

(** The number of URLs that an entry takes: [range(r + 1)]. *)
Definition url_count (s : s_entry) : nat := Z.to_nat (r s + 1).

Fixpoint total_urls (ss : list s_entry) : nat :=
  match ss with
  | [] => 0
  | s :: ss' => url_count s + total_urls ss'
  end.

Definition url_fragment (duration : value) (segment_uri : string) : dict :=
  [ (location_key segment_uri, VStr segment_uri); ("duration", duration) ].

(** The fragments of the entries, each taking its URLs from the head of
    the list. *)
Fixpoint url_fragments (segment_urls : list string) (ss : list s_entry)
  : list dict :=
  match ss with
  | [] => []
  | s :: ss' =>
      map (url_fragment (quotient (d s)))
        (firstn (url_count s) segment_urls)
        ++ url_fragments (skipn (url_count s) segment_urls) ss'
  end.

Lemma skipn_nth_error {A : Type} (l : list A) (i : nat) (x : A) :
  nth_error l i = Some x -> skipn i l = x :: skipn (S i) l.
Proof.
  revert i. induction l as [|y l IH]; intros [|i]; simpl; try discriminate.
  - now intros [= ->].
  - intros H. now rewrite (IH _ H).
Qed.

Lemma take_segment_urls_spec (segment_urls : list string) (duration : value)
    (n : nat) (fragments : list dict) (segment_index : nat) :
  (segment_index <= List.length segment_urls)%nat ->
  take_segment_urls segment_urls duration n (fragments, segment_index)
  = if (segment_index + n <=? List.length segment_urls)%nat
    then Ok ((fragments
              ++ map (url_fragment duration)
                   (firstn n (skipn segment_index segment_urls)))%list,
             (segment_index + n)%nat)
    else Raise IndexError.
Proof.
  revert fragments segment_index.
  induction n as [|n IH]; intros fragments segment_index Hle.
  - simpl. rewrite app_nil_r, Nat.add_0_r.
    apply Nat.leb_le in Hle. now rewrite Hle.
  - cbn [take_segment_urls].
    destruct (nth_error segment_urls segment_index) as [uri|] eqn:E.
    + assert (Hlt : (segment_index < List.length segment_urls)%nat)
        by (apply nth_error_Some; congruence).
      rewrite IH by lia.
      rewrite (skipn_nth_error _ _ _ E). cbn [firstn map].
      replace (S segment_index + n)%nat with (segment_index + S n)%nat by lia.
      destruct (segment_index + S n <=? List.length segment_urls)%nat;
        [|reflexivity].
      now rewrite <- app_assoc.
    + apply nth_error_None in E.
      destruct (segment_index + S n <=? List.length segment_urls)%nat eqn:E';
        [|reflexivity].
      apply Nat.leb_le in E'. lia.
Qed.

Local Abbreviation segment_list_step_of := (segment_list_step timescale).

Lemma segment_list_fold_spec (segment_urls : list string) (ss : list s_entry)
    (fragments : list dict) (segment_index : nat) :
  timescale <> 0%Z ->
  (segment_index <= List.length segment_urls)%nat ->
  foldM (segment_list_step_of segment_urls) ss (fragments, segment_index)
  = if (segment_index + total_urls ss <=? List.length segment_urls)%nat
    then Ok ((fragments
              ++ url_fragments (skipn segment_index segment_urls) ss)%list,
             (segment_index + total_urls ss)%nat)
    else Raise IndexError.
Proof.
  intros Hts. revert fragments segment_index.
  induction ss as [|s ss IH]; intros fragments segment_index Hle.
  - simpl. rewrite app_nil_r, Nat.add_0_r.
    apply Nat.leb_le in Hle. now rewrite Hle.
  - cbn [foldM total_urls url_fragments]. unfold segment_list_step at 1.
    rewrite (float_or_none_quotient (d s) Hts). cbn [bind].
    fold (url_count s). rewrite take_segment_urls_spec by exact Hle.
    destruct (segment_index + url_count s <=? List.length segment_urls)%nat
      eqn:E.
    + apply Nat.leb_le in E. cbn [bind]. rewrite IH by exact E.
      rewrite Nat.add_assoc, skipn_skipn, <- app_assoc.
      now rewrite (Nat.add_comm (url_count s) segment_index).
    + apply Nat.leb_gt in E. cbn [bind].
      destruct (segment_index + (url_count s + total_urls ss)
                <=? List.length segment_urls)%nat eqn:E'; [|reflexivity].
      apply Nat.leb_le in E'. lia.
Qed.

(** For a timescale that is not zero the branch returns when the URLs
    are enough and raises [IndexError] when they are not. *)
Lemma segment_list_timeline_spec (segment_urls : list string)
    (ss : list s_entry) :
  timescale <> 0%Z ->
  segment_list_timeline_fragments timescale segment_urls ss
  = if (total_urls ss <=? List.length segment_urls)%nat
    then Ok (url_fragments segment_urls ss)
    else Raise IndexError.
Proof.
  intros Hts. unfold segment_list_timeline_fragments.
  rewrite segment_list_fold_spec by (exact Hts || lia). simpl.
  now destruct (total_urls ss <=? List.length segment_urls)%nat.
Qed.

(** For a timescale of zero the duration of the first entry is the
    [ZeroDivisionError], before any URL is read. *)
Lemma segment_list_timeline_zero (segment_urls : list string) (s : s_entry)
    (ss : list s_entry) :
  timescale = 0%Z ->
  segment_list_timeline_fragments timescale segment_urls (s :: ss)
  = Raise ZeroDivisionError.
Proof.
  intros ->. reflexivity.
Qed.

(** [ms_info['total_number']] is the sum of [1 + r] over the entries, and
    the entries are the elements, a missing [t] or [r] read as zero. *)
Definition entry_of (e : S_element) (duration : Z) : s_entry :=
  {| t := match attr_t e with Some t => t | None => 0%Z end;
     d := duration;
     r := match attr_r e with Some r => r | None => 0%Z end |}.

Fixpoint sum_of_runs (ss : list s_entry) : Z :=
  match ss with
  | [] => 0
  | s :: ss' => (1 + r s + sum_of_runs ss')%Z
  end.

Lemma extract_timeline_fold (s_e : list S_element) (total : Z)
    (entries : list s_entry) (total' : Z) (ss : list s_entry) :
  foldM extract_s s_e (total, entries) = Ok (total', ss) ->
  exists added,
    ss = (entries ++ added)%list
    /\ total' = (total + sum_of_runs added)%Z
    /\ Forall2 (fun e s => attr_d e = Some (d s) /\ s = entry_of e (d s))
         s_e added.
Proof.
  revert total entries. induction s_e as [|e s_e IH]; intros total entries.
  - simpl. intros [= <- <-]. exists []. rewrite app_nil_r.
    repeat split; [simpl; lia | constructor].
  - cbn [foldM]. unfold extract_s at 1.
    destruct (attr_d e) as [duration|] eqn:Ed; [|discriminate].
    cbn [bind]. intros H. apply IH in H. destruct H as (added & -> & -> & Hall).
    eexists (_ :: added). rewrite <- app_assoc. split; [reflexivity|].
    split; [simpl; lia|]. constructor; [|exact Hall].
    split; [exact Ed | reflexivity].
Qed.

Lemma sum_of_runs_le_total_urls (ss : list s_entry) :
  (sum_of_runs ss <= Z.of_nat (total_urls ss))%Z.
Proof.
  induction ss as [|s ss IH]; cbn [sum_of_runs total_urls]; [lia|].
  unfold url_count. lia.
Qed.

Lemma timeline_segments_length (ss : list s_entry) (time number : Z) :
  List.length (timeline_segments time number ss)
  = fold_right (fun s n => (repetitions s + n)%nat) 0%nat ss.
Proof.
  revert time number. induction ss as [|s ss IH]; intros time number.
  - reflexivity.
  - cbn [timeline_segments fold_right]. rewrite length_app, IH.
    unfold entry_segments. now rewrite length_map, length_seq.
Qed.

Lemma mapM_Forall2 {A B : Type} (f : A -> result B) (l : list A)
    (out : list B) :
  mapM f l = Ok out -> Forall2 (fun a b => f a = Ok b) l out.
Proof.
  revert out. induction l as [|x l IH]; intros out; cbn [mapM].
  - intros [= <-]. constructor.
  - destruct (f x) as [b|] eqn:E; cbn [bind]; [|discriminate].
    destruct (mapM f l) as [bs|]; cbn [bind]; [|discriminate].
    intros [= <-]. constructor; [exact E | now apply IH].
Qed.

Lemma timed_fragment_duration (seg : Z * Z * Z) (fragment : dict) :
  timed_fragment seg = Ok fragment ->
  lookup "duration" fragment = Some (quotient (snd seg)).
Proof.
  destruct seg as [[time number] segment_d]. unfold timed_fragment.
  destruct (py_format _ _) as [segment_url|]; cbn [bind]; [|discriminate].
  intros [= <-]. unfold location_key.
  destruct (is_http_url media_template); reflexivity.
Qed.

(** C4, as the code has it, for a timescale that is not zero.  The
    entries of the timeline are the [S] elements, a missing [t] or [r]
    read as zero.  In the template branch an entry gives [max(r, 0) + 1]
    fragments, which is [r + 1] when [r] is not negative: the first at
    the [t] of the entry when that is not zero and else at the time
    reached, the next ones [d] later each, all with the duration
    [d / timescale]; the time reached after the entry is that of its
    last segment plus [d].  In the branch of the explicit URLs an entry
    takes [max(r + 1, 0)] URLs, each with the duration [d / timescale],
    when the URLs are enough. *)
Theorem timeline_fragments_per_entry (s_e : list S_element)
    (total_number : Z) (ss : list s_entry) :
  extract_timeline s_e = Ok (total_number, ss) ->
  timescale <> 0%Z ->
  Forall2 (fun e s => attr_d e = Some (d s) /\ s = entry_of e (d s)) s_e ss
  /\ template_timeline_fragments media_template bandwidth timescale
       start_number ss
     = mapM timed_fragment (timeline_segments 0 start_number ss)
  /\ (forall out,
        template_timeline_fragments media_template bandwidth timescale
          start_number ss = Ok out ->
        List.length out
        = fold_right (fun s n => (repetitions s + n)%nat) 0%nat ss
        /\ Forall2
             (fun seg fragment =>
                lookup "duration" fragment
                = Some (VFloat (Qred (inject_Z (snd seg)
                                      / inject_Z timescale)%Q)))
             (timeline_segments 0 start_number ss) out)
  /\ (forall s, (0 <= r s)%Z ->
        repetitions s = Z.to_nat (r s + 1)
        /\ url_count s = Z.to_nat (r s + 1))
  /\ (forall segment_urls,
        (total_urls ss <= List.length segment_urls)%nat ->
        segment_list_timeline_fragments timescale segment_urls ss
        = Ok (url_fragments segment_urls ss)).
Proof.
  intros Hx Hts.
  assert (Htemplate :
    template_timeline_fragments media_template bandwidth timescale
      start_number ss
    = mapM timed_fragment (timeline_segments 0 start_number ss)).
  { unfold template_timeline_fragments.
    rewrite timeline_fold_spec. cbn [segment_time segment_number
                                       fragments_so_far].
    rewrite (mapM_timed _ Hts).
    destruct (mapM timed_fragment _); reflexivity. }
  split; [|split; [exact Htemplate | split; [|split]]].
  - unfold extract_timeline in Hx. apply extract_timeline_fold in Hx.
    destruct Hx as (added & -> & _ & Hall). exact Hall.
  - intros out Hout. rewrite Htemplate in Hout. split.
    + apply mapM_length in Hout. rewrite Hout.
      apply timeline_segments_length.
    + apply mapM_Forall2 in Hout.
      apply Forall2_impl with (2 := Hout).
      intros seg fragment H. exact (timed_fragment_duration seg fragment H).
  - intros s Hr. unfold repetitions, url_count. lia.
  - intros segment_urls Hle. rewrite (segment_list_timeline_spec _ _ Hts).
    apply Nat.leb_le in Hle. now rewrite Hle.
Qed.

(** C10, as the code has it: with an explicit list of segment URLs and
    a timeline, when the total of the timeline, the sum of [r + 1] over
    its [S] elements that [extract_common] keeps as [total_number], is
    more than the number of URLs, the enumeration of the fragments
    returns no result: it raises [IndexError] when the timescale is not
    zero, and the [ZeroDivisionError] of the first duration, which is
    computed before any URL is read, when the timescale is zero. *)
Theorem segment_urls_exhausted (s_e : list S_element) (total_number : Z)
    (ss : list s_entry) (segment_urls : list string) :
  extract_timeline s_e = Ok (total_number, ss) ->
  (Z.of_nat (List.length segment_urls) < total_number)%Z ->
  segment_list_timeline_fragments timescale segment_urls ss
  = Raise (if (timescale =? 0)%Z then ZeroDivisionError else IndexError).
Proof.
  intros Hx Hlt. unfold extract_timeline in Hx.
  apply extract_timeline_fold in Hx. destruct Hx as (added & -> & -> & _).
  cbn [app] in *. destruct (timescale =? 0)%Z eqn:Ets.
  - apply Z.eqb_eq in Ets. destruct added as [|s added].
    + cbn [sum_of_runs] in Hlt. lia.
    + now apply segment_list_timeline_zero.
  - apply Z.eqb_neq in Ets. rewrite (segment_list_timeline_spec _ _ Ets).
    pose proof (sum_of_runs_le_total_urls added) as Hsum.
    destruct (total_urls added <=? List.length segment_urls)%nat eqn:E;
      [|reflexivity].
    apply Nat.leb_le in E. lia.
Qed.

(** The timeline as C4 states it: [r + 1] segments for each element, the
    first at the [t] of the element whenever one is given. *)
Fixpoint claimed_segments (time number : Z) (s_e : list S_element)
  : list (Z * Z * Z) :=
  match s_e with
  | [] => []
  | e :: rest =>
      let first := match attr_t e with Some t => t | None => time end in
      let duration := match attr_d e with Some d => d | None => 0%Z end in
      let runs :=
        Z.to_nat (match attr_r e with Some r => r | None => 0%Z end + 1) in
      map (fun k => ((first + Z.of_nat k * duration)%Z,
                     (number + Z.of_nat k)%Z, duration))
        (seq 0 runs)
        ++ claimed_segments (first + Z.of_nat runs * duration)%Z
             (number + Z.of_nat runs)%Z rest
  end.

End Facts.

Lemma timeline_fragments_per_entry_witness :
  DASH.template_timeline_fragments Samples.media_template None 1 1
    [ {| t := 100; d := 10; r := 2 |}; {| t := 0; d := 5; r := 0 |} ]
  = mapM (timed_fragment Samples.media_template None 1)
      [ (100, 1, 10); (110, 2, 10); (120, 3, 10); (130, 4, 5) ]%Z.
Proof.
  refine (proj1 (proj2
    (timeline_fragments_per_entry Samples.media_template None 1 1
       Samples.regular_timeline 4 _ eq_refl _))).
  discriminate.
Defined.

Lemma segment_urls_exhausted_witness :
  DASH.segment_list_timeline_fragments 1 ["a.m4s"; "b.m4s"; "c.m4s"]
    [ {| t := 100; d := 10; r := 2 |}; {| t := 0; d := 5; r := 0 |} ]
  = Raise IndexError.
Proof.
  apply (segment_urls_exhausted 1 Samples.regular_timeline 4).
  - reflexivity.
  - simpl. lia.
Defined.

(** C4, as the specification states it, fails on a timeline of three
    [S] elements with [d = 10], the second with an explicit [t = 0] and
    the third with [r = -1]: the code gives three fragments, at the times
    0, 10 and 20, where that reading gives two, both at the time 0.  It
    fails too on a timescale of zero, where no fragment is given a
    duration: the division raises [ZeroDivisionError]. *)
Lemma timeline_with_zero_t_and_negative_r :
  extract_timeline Samples.timeline
  = Ok (2%Z, [ {| t := 0; d := 10; r := 0 |}; {| t := 0; d := 10; r := 0 |};
               {| t := 0; d := 10; r := -1 |} ])
  /\ DASH.template_timeline_fragments Samples.media_template None 1 1
       [ {| t := 0; d := 10; r := 0 |}; {| t := 0; d := 10; r := 0 |};
         {| t := 0; d := 10; r := -1 |} ]
     = Ok [ [ ("path", VStr "seg-0.m4s"); ("duration", VFloat 10) ];
            [ ("path", VStr "seg-10.m4s"); ("duration", VFloat 10) ];
            [ ("path", VStr "seg-20.m4s"); ("duration", VFloat 10) ] ]
  /\ mapM (timed_fragment Samples.media_template None 1)
       (claimed_segments 0 1 Samples.timeline)
     = Ok [ [ ("path", VStr "seg-0.m4s"); ("duration", VFloat 10) ];
            [ ("path", VStr "seg-0.m4s"); ("duration", VFloat 10) ] ]
  /\ DASH.template_timeline_fragments Samples.media_template None 1 1
       [ {| t := 0; d := 10; r := 0 |}; {| t := 0; d := 10; r := 0 |};
         {| t := 0; d := 10; r := -1 |} ]
     <> mapM (timed_fragment Samples.media_template None 1)
          (claimed_segments 0 1 Samples.timeline)
  /\ DASH.template_timeline_fragments Samples.media_template None 0 1
       [ {| t := 0; d := 10; r := 0 |}; {| t := 0; d := 10; r := 0 |};
         {| t := 0; d := 10; r := -1 |} ]
     = Raise ZeroDivisionError.
Proof.
  repeat split; try reflexivity. vm_compute. discriminate.
Qed.

(** C10, as it is stated, fails on a timescale of zero: the timeline
    asks for four URLs and there are three, and the error is the
    [ZeroDivisionError] of the first duration, not an [IndexError]. *)
Lemma segment_urls_with_zero_timescale :
  extract_timeline Samples.regular_timeline
  = Ok (4%Z, [ {| t := 100; d := 10; r := 2 |}; {| t := 0; d := 5; r := 0 |} ])
  /\ DASH.segment_list_timeline_fragments 0 ["a.m4s"; "b.m4s"; "c.m4s"]
       [ {| t := 100; d := 10; r := 2 |}; {| t := 0; d := 5; r := 0 |} ]
     = Raise ZeroDivisionError
  /\ DASH.segment_list_timeline_fragments 0 ["a.m4s"; "b.m4s"; "c.m4s"]
       [ {| t := 100; d := 10; r := 2 |}; {| t := 0; d := 5; r := 0 |} ]
     <> Raise IndexError.
Proof.
  repeat split; try reflexivity. discriminate.
Qed.

End TimelineFacts.

(** ** DASH: the merge of periods *)

Module MergeFacts.

Import Py DASH PyFacts.
Local Open Scope string_scope.

(** *** Equality of keys *)

Lemma hkey_eqb_eq (a b : hkey) : hkey_eqb a b = true <-> a = b.
Proof.
  destruct a, b; simpl; split; try discriminate; try reflexivity.
  - intros H. apply andb_true_iff in H. destruct H as [H1 H2].
    apply Z.eqb_eq in H1. apply Pos.eqb_eq in H2. now subst.
  - intros [= -> ->]. now rewrite Z.eqb_refl, Pos.eqb_refl.
  - intros H. apply String.eqb_eq in H. now subst.
  - intros [= ->]. apply String.eqb_refl.
Qed.

Lemma key_eqb_eq (a b : list hkey) : key_eqb a b = true <-> a = b.
Proof.
  revert b. induction a as [|x a IH]; intros [|y b]; simpl;
    split; try discriminate; try reflexivity.
  - intros H. apply andb_true_iff in H. destruct H as [H1 H2].
    apply hkey_eqb_eq in H1. apply IH in H2. now subst.
  - intros [= -> ->]. apply andb_true_iff. split.
    + now apply hkey_eqb_eq.
    + now apply IH.
Qed.

Lemma key_eqb_refl (a : list hkey) : key_eqb a a = true.
Proof. now apply key_eqb_eq. Qed.

Lemma key_eqb_neq (a b : list hkey) : key_eqb a b = false <-> a <> b.
Proof.
  split.
  - intros H E. apply key_eqb_eq in E. congruence.
  - intros H. destruct (key_eqb a b) eqn:E; [|reflexivity].
    apply key_eqb_eq in E. contradiction.
Qed.

Lemma key_eqb_sym (a b : list hkey) : key_eqb a b = key_eqb b a.
Proof.
  destruct (key_eqb a b) eqn:E.
  - apply key_eqb_eq in E. subst. now rewrite key_eqb_refl.
  - apply key_eqb_neq in E. symmetry. apply key_eqb_neq. congruence.
Qed.

(** *** The merge in the words of the specification *)

(** A format when the loop has marked it. *)
Definition mark (f : Format) : Format :=
  {| attrs := setitem "is_dash_periods" (VBool true) (attrs f);
     fragments := fragments f |}.

Definition unprocessed (f : Format) : Prop :=
  mem "is_dash_periods" (attrs f) = false.

(** The formats of all periods, in the order of the periods. *)
Definition all_formats (periods : list Period) : list Format :=
  flat_map formats periods.

(** The keys of a list of formats, each once, in the order in which
    they are first met. *)
Fixpoint first_keys (fs : list Format) : list (list hkey) :=
  match fs with
  | [] => []
  | f :: rest =>
      format_key f
        :: filter (fun k => negb (key_eqb k (format_key f))) (first_keys rest)
  end.

(** The formats with the key [k], in order. *)
Definition group (k : list hkey) (fs : list Format) : list Format :=
  filter (fun f => key_eqb (format_key f) k) fs.

(** The list under ['fragments'], empty when the key is not there. *)
Definition fragment_list (f : Format) : list dict :=
  match fragments f with
  | Some l => l
  | None => []
  end.

(** A later member of a group gives its fragments, when it has the key,
    to the fragments gathered so far. *)
Definition gather (acc : option (list dict)) (g : Format)
  : option (list dict) :=
  match fragments g with
  | Some more => Some (match acc with Some l => l | None => [] end ++ more)%list
  | None => acc
  end.

(** The format kept for a group: the first member, with the fragments of
    the later members after its own. *)
Definition merge_group (members : list Format) : Format :=
  match members with
  | [] => {| attrs := []; fragments := None |}
  | first :: later =>
      {| attrs := attrs first;
         fragments := fold_left gather later (fragments first) |}
  end.

(** The dictionary [formats] after the formats [fs] were met. *)
Definition merged_of (fs : list Format) : merged :=
  map (fun k => (k, merge_group (group k fs))) (first_keys fs).

(** *** Facts about keys and groups *)

Definition has_key (k : list hkey) (fs : list Format) : bool :=
  existsb (fun f => key_eqb (format_key f) k) fs.

Lemma first_keys_In (fs : list Format) (k : list hkey) :
  In k (first_keys fs) <-> has_key k fs = true.
Proof.
  induction fs as [|f rest IH]; simpl.
  - split; [intros [] | discriminate].
  - rewrite filter_In, IH, orb_true_iff.
    destruct (key_eqb (format_key f) k) eqn:E.
    + apply key_eqb_eq in E. split; [now left | now left].
    + apply key_eqb_neq in E. split.
      * intros [H|[H _]]; [contradiction | now right].
      * intros [H|H]; [discriminate|]. right. split; [exact H|].
        apply negb_true_iff, key_eqb_neq. congruence.
Qed.

Lemma first_keys_NoDup (fs : list Format) : NoDup (first_keys fs).
Proof.
  induction fs as [|f rest IH]; simpl; constructor.
  - rewrite filter_In. intros [_ H].
    now rewrite key_eqb_refl in H.
  - now apply NoDup_filter.
Qed.

Lemma first_keys_snoc (fs : list Format) (f : Format) :
  first_keys (fs ++ [f])
  = (first_keys fs
     ++ if has_key (format_key f) fs then [] else [format_key f])%list.
Proof.
  induction fs as [|g rest IH]; simpl; [reflexivity|].
  rewrite IH, filter_app. f_equal. f_equal.
  destruct (key_eqb (format_key g) (format_key f)) eqn:E; simpl.
  - destruct (has_key (format_key f) rest); simpl; [reflexivity|].
    now rewrite key_eqb_sym, E.
  - destruct (has_key (format_key f) rest); simpl; [reflexivity|].
    now rewrite key_eqb_sym, E.
Qed.

Lemma group_snoc (k : list hkey) (fs : list Format) (f : Format) :
  group k (fs ++ [f])
  = (group k fs ++ if key_eqb (format_key f) k then [f] else [])%list.
Proof. unfold group. now rewrite filter_app. Qed.

Lemma group_nil_iff (k : list hkey) (fs : list Format) :
  has_key k fs = false -> group k fs = [].
Proof.
  intros H. unfold group, has_key in *.
  induction fs as [|g rest IH]; simpl in *; [reflexivity|].
  apply orb_false_iff in H. destruct H as [H1 H2]. rewrite H1. now apply IH.
Qed.

Lemma group_cons_of_key (k : list hkey) (fs : list Format) :
  has_key k fs = true -> exists first later, group k fs = first :: later.
Proof.
  intros H. unfold group, has_key in *.
  induction fs as [|g rest IH]; simpl in *; [discriminate|].
  destruct (key_eqb (format_key g) k); [now eexists; eexists|].
  now apply IH.
Qed.

Lemma group_key (k : list hkey) (fs : list Format) (f : Format) :
  In f (group k fs) -> format_key f = k.
Proof.
  unfold group. rewrite filter_In. intros [_ H]. now apply key_eqb_eq.
Qed.

Lemma merge_group_snoc (members : list Format) (f : Format) :
  members <> [] ->
  merge_group (members ++ [f])
  = {| attrs := attrs (merge_group members);
       fragments := gather (fragments (merge_group members)) f |}.
Proof.
  destruct members as [|first later]; [congruence|]. intros _.
  simpl. now rewrite fold_left_app.
Qed.

Lemma fragment_list_gather (later : list Format) (acc : option (list dict)) :
  match fold_left gather later acc with Some l => l | None => [] end
  = (match acc with Some l => l | None => [] end
     ++ List.concat (map fragment_list later))%list.
Proof.
  revert acc. induction later as [|g later IH]; intros acc; simpl.
  - now rewrite app_nil_r.
  - rewrite IH. unfold gather, fragment_list.
    destruct (fragments g); [now rewrite <- app_assoc | reflexivity].
Qed.

(** The fragments of the format kept are those of the members, one list
    after the other. *)
Lemma merge_group_fragments (members : list Format) :
  fragment_list (merge_group members) = List.concat (map fragment_list members).
Proof.
  destruct members as [|first later]; [reflexivity|].
  unfold fragment_list at 1. simpl. apply fragment_list_gather.
Qed.

(** *** The loop over the formats *)

Lemma find_key_pairs (k : list hkey) (G : list hkey -> Format)
    (keys : list (list hkey)) :
  find_key k (map (fun k0 => (k0, G k0)) keys) = true <-> In k keys.
Proof.
  induction keys as [|k0 keys IH]; simpl.
  - split; [discriminate | intros []].
  - destruct (key_eqb k0 k) eqn:E.
    + apply key_eqb_eq in E. split; [now left | reflexivity].
    + apply key_eqb_neq in E. rewrite IH. split; [now right|].
      intros [H|H]; [contradiction | exact H].
Qed.

Lemma find_key_merged_of (k : list hkey) (fs : list Format) :
  find_key k (merged_of fs) = has_key k fs.
Proof.
  apply Bool.eq_iff_eq_true. unfold merged_of.
  now rewrite find_key_pairs, first_keys_In.
Qed.

Lemma extend_fragments_pairs (k : list hkey) (more : list dict)
    (G G' : list hkey -> Format) (keys : list (list hkey)) :
  NoDup keys ->
  (forall k0, In k0 keys -> k0 <> k -> G' k0 = G k0) ->
  (In k keys ->
   G' k = {| attrs := attrs (G k);
             fragments := Some (fragment_list (G k) ++ more)%list |}) ->
  extend_fragments k more (map (fun k0 => (k0, G k0)) keys)
  = map (fun k0 => (k0, G' k0)) keys.
Proof.
  intros Hnd. induction Hnd as [|k0 keys Hnotin Hnd IH]; intros Hother Hk.
  - reflexivity.
  - simpl. destruct (key_eqb k0 k) eqn:E.
    + apply key_eqb_eq in E. subst k0. rewrite (Hk (or_introl eq_refl)).
      f_equal. apply map_ext_in. intros k1 Hin. f_equal. symmetry.
      apply Hother; [now right | congruence].
    + apply key_eqb_neq in E. rewrite (Hother k0 (or_introl eq_refl) E).
      f_equal. apply IH.
      * intros k1 Hin. apply Hother. now right.
      * intros Hin. apply Hk. now right.
Qed.

Lemma merged_of_snoc (done : list Format) (f : Format) :
  merged_of (done ++ [f])
  = map (fun k => (k, merge_group (group k (done ++ [f]))))
      (first_keys done
       ++ if has_key (format_key f) done then [] else [format_key f])%list.
Proof. unfold merged_of. now rewrite first_keys_snoc. Qed.

Lemma merge_format_step (done : list Format) (f : Format) :
  unprocessed f ->
  merge_format (merged_of done) f = Ok (merged_of (done ++ [mark f])).
Proof.
  intros Hun. unfold merge_format. rewrite Hun. fold (mark f).
  set (f' := mark f). set (k := format_key f').
  rewrite find_key_merged_of, merged_of_snoc. fold k.
  destruct (has_key k done) eqn:Hk; cbn [negb].
  - rewrite app_nil_r.
    assert (Hne : group k done <> []).
    { destruct (group_cons_of_key k done Hk) as (first & later & ->).
      discriminate. }
    assert (Hsame : forall k0, k0 <> k ->
              merge_group (group k0 (done ++ [f']))
              = merge_group (group k0 done)).
    { intros k0 Hk0. rewrite group_snoc. fold k.
      replace (key_eqb k k0) with false; [now rewrite app_nil_r|].
      symmetry. apply key_eqb_neq. congruence. }
    assert (Hat : merge_group (group k (done ++ [f']))
                  = {| attrs := attrs (merge_group (group k done));
                       fragments :=
                         gather (fragments (merge_group (group k done))) f' |}).
    { rewrite group_snoc. fold k. rewrite key_eqb_refl.
      now apply merge_group_snoc. }
    destruct (fragments f') as [more|] eqn:Hfr.
    + f_equal. unfold merged_of.
      apply extend_fragments_pairs
        with (G := fun k0 => merge_group (group k0 done))
             (G' := fun k0 => merge_group (group k0 (done ++ [f']))).
      * apply first_keys_NoDup.
      * intros k0 _ Hk0. now apply Hsame.
      * intros _. rewrite Hat. unfold gather, fragment_list.
        now rewrite Hfr.
    + f_equal. unfold merged_of. apply map_ext_in. intros k0 _. f_equal.
      destruct (key_eqb k0 k) eqn:E.
      * apply key_eqb_eq in E. subst k0. rewrite Hat. unfold gather.
        rewrite Hfr. destruct (group k done) as [|first later];
          [congruence | reflexivity].
      * apply key_eqb_neq in E. symmetry. now apply Hsame.
  - f_equal. unfold merged_of. rewrite map_app. f_equal.
    + apply map_ext_in. intros k0 Hin. f_equal.
      apply first_keys_In in Hin.
      rewrite group_snoc. fold k.
      replace (key_eqb k k0) with false; [now rewrite app_nil_r|].
      symmetry. apply key_eqb_neq. intros ->. congruence.
    + cbn [map]. rewrite group_snoc. fold k. rewrite key_eqb_refl.
      now rewrite (group_nil_iff k done Hk).
Qed.

Lemma merge_formats_loop (fs done : list Format) :
  Forall unprocessed fs ->
  foldM merge_format fs (merged_of done)
  = Ok (merged_of (done ++ map mark fs)).
Proof.
  intros H. revert done. induction H as [|f fs Hf _ IH]; intros done.
  - simpl. now rewrite app_nil_r.
  - cbn [foldM map]. rewrite (merge_format_step done f Hf). cbn [bind].
    rewrite IH, <- app_assoc. reflexivity.
Qed.

(** A format that carries the mark stops the loop, whatever was merged
    before it. *)
Lemma merge_format_result (m : merged) (f : Format) :
  (unprocessed f /\ exists m', merge_format m f = Ok m')
  \/ (~ unprocessed f /\ merge_format m f = Raise AssertionError).
Proof.
  unfold merge_format, unprocessed.
  destruct (mem "is_dash_periods" (attrs f)).
  - right. split; [discriminate | reflexivity].
  - left. split; [reflexivity|].
    destruct (negb _); [now eexists|].
    destruct (fragments _); now eexists.
Qed.

Lemma merge_formats_result (fs : list Format) (m : merged) :
  (Forall unprocessed fs /\ exists m', foldM merge_format fs m = Ok m')
  \/ (~ Forall unprocessed fs
       /\ foldM merge_format fs m = Raise AssertionError).
Proof.
  revert m. induction fs as [|f fs IH]; intros m.
  - left. split; [constructor | now exists m].
  - cbn [foldM].
    destruct (merge_format_result m f) as [[Hf (m1 & ->)]|[Hf ->]].
    + cbn [bind]. destruct (IH m1) as [[Hall Hex]|[Hnot Hraise]].
      * left. split; [now constructor | exact Hex].
      * right. split; [|exact Hraise]. intros H. apply Hnot.
        now inversion H.
    + right. split; [|reflexivity]. intros H. apply Hf. now inversion H.
Qed.

(** *** The loop over the periods *)

Lemma merge_periods_loop (periods : list Period) (done : list Format)
    (st : merge_state) :
  merged_formats st = merged_of done ->
  Forall unprocessed (all_formats periods) ->
  exists st',
    foldM merge_period periods st = Ok st'
    /\ merged_formats st'
       = merged_of (done ++ map mark (all_formats periods)).
Proof.
  revert done st. induction periods as [|p periods IH]; intros done st Hst Hall.
  - exists st. simpl. now rewrite app_nil_r.
  - cbn [all_formats flat_map] in Hall. apply Forall_app in Hall.
    destruct Hall as [Hp Hrest].
    cbn [foldM]. unfold merge_period at 1.
    rewrite Hst, (merge_formats_loop _ done Hp). cbn [bind].
    match goal with
    | |- context [foldM merge_period periods ?s] =>
        destruct (IH (done ++ map mark (formats p))%list s eq_refl Hrest)
          as (st' & Hfold & Hm)
    end.
    exists st'. split; [exact Hfold|]. rewrite Hm.
    cbn [all_formats flat_map]. now rewrite map_app, app_assoc.
Qed.

Lemma merge_periods_rejects (periods : list Period) (st : merge_state) :
  ~ Forall unprocessed (all_formats periods) ->
  foldM merge_period periods st = Raise AssertionError.
Proof.
  revert st. induction periods as [|p periods IH]; intros st Hnot.
  - exfalso. apply Hnot. constructor.
  - cbn [foldM]. unfold merge_period at 1.
    destruct (merge_formats_result (formats p) (merged_formats st))
      as [[Hall (m' & ->)]|[Hn ->]]; [|reflexivity].
    cbn [bind]. apply IH. intros Hrest. apply Hnot.
    cbn [all_formats flat_map]. apply Forall_app. now split.
Qed.

Lemma merge_periods_ok_inv (periods : list Period)
    (result : list Format * list (string * list dict)) :
  _merge_mpd_periods periods = Ok result ->
  Forall unprocessed (all_formats periods).
Proof.
  intros H. unfold _merge_mpd_periods in H.
  destruct (Forall_dec unprocessed) with (l := all_formats periods)
    as [Hall|Hnot]; [|exact Hall|].
  - intros f. unfold unprocessed.
    destruct (mem "is_dash_periods" (attrs f)); [right | left]; congruence.
  - rewrite (merge_periods_rejects periods _ Hnot) in H. discriminate.
Qed.

(** The result when no format carries the mark. *)
Lemma merge_periods_formats (periods : list Period) :
  Forall unprocessed (all_formats periods) ->
  exists subs,
    _merge_mpd_periods periods
    = Ok (map (fun k => merge_group
                          (group k (map mark (all_formats periods))))
            (first_keys (map mark (all_formats periods))),
          subs).
Proof.
  intros Hall. unfold _merge_mpd_periods.
  destruct (merge_periods_loop periods []
              {| merged_formats := []; merged_subtitles := [];
                 warned := false |} eq_refl Hall)
    as (st' & -> & Hm).
  cbn [bind app] in *. exists (merged_subtitles st'). rewrite Hm.
  unfold merged_of. now rewrite map_map.
Qed.

(** *** What the merge returns *)

Lemma format_key_attrs (f g : Format) :
  attrs f = attrs g -> format_key f = format_key g.
Proof. unfold format_key. now intros ->. Qed.

Lemma merge_group_key (k : list hkey) (fs : list Format) :
  has_key k fs = true -> format_key (merge_group (group k fs)) = k.
Proof.
  intros H. destruct (group_cons_of_key k fs H) as (first & later & E).
  rewrite E. transitivity (format_key first).
  - now apply format_key_attrs.
  - apply (group_key k fs). rewrite E. now left.
Qed.

Lemma mark_is_marked (f : Format) :
  mem "is_dash_periods" (attrs (mark f)) = true.
Proof. unfold mem, mark. simpl. now rewrite lookup_setitem_same. Qed.

Lemma merge_group_marked (k : list hkey) (fs : list Format) :
  has_key k (map mark fs) = true ->
  mem "is_dash_periods" (attrs (merge_group (group k (map mark fs)))) = true.
Proof.
  intros H.
  destruct (group_cons_of_key k _ H) as (first & later & E). rewrite E.
  assert (Hin : In first (map mark fs)).
  { assert (Hg : In first (group k (map mark fs))) by (rewrite E; now left).
    unfold group in Hg. now apply filter_In in Hg. }
  apply in_map_iff in Hin. destruct Hin as (f0 & <- & _).
  apply mark_is_marked.
Qed.

(** C3, as the code has it: the formats of all periods, each marked with
    [is_dash_periods], are grouped by the tuple of the values of their
    attributes other than [format_id], [fragments] and
    [manifest_stream_number], taken in the order of the attributes and
    compared as Python compares them; the names of the attributes take
    no part.  There is one format for each group, in the order in which
    the groups are first met: the first member of the group, with the
    fragments of all members, in the order of the periods. *)
Theorem merge_groups_by_attribute_values (periods : list Period) :
  Forall unprocessed (all_formats periods) ->
  let fs := map mark (all_formats periods) in
  (exists subs,
     _merge_mpd_periods periods
     = Ok (map (fun k => merge_group (group k fs)) (first_keys fs), subs))
  /\ NoDup (first_keys fs)
  /\ (forall f, In f fs -> In (format_key f) (first_keys fs))
  /\ (forall k f, In f (group k fs) <-> In f fs /\ format_key f = k)
  /\ (forall k, In k (first_keys fs) ->
        exists first later,
          group k fs = first :: later
          /\ attrs (merge_group (group k fs)) = attrs first
          /\ fragment_list (merge_group (group k fs))
             = List.concat (map fragment_list (first :: later))).
Proof.
  intros Hall fs. split; [|split; [|split; [|split]]].
  - now apply merge_periods_formats.
  - apply first_keys_NoDup.
  - intros f Hin. apply first_keys_In. unfold has_key.
    apply existsb_exists. exists f. split; [exact Hin | apply key_eqb_refl].
  - intros k f. unfold group. rewrite filter_In.
    split; intros [H1 H2]; (split; [exact H1 | now apply key_eqb_eq]).
  - intros k Hk. apply first_keys_In in Hk.
    destruct (group_cons_of_key k fs Hk) as (first & later & E).
    exists first, later. split; [exact E|]. rewrite E.
    split; [reflexivity | apply merge_group_fragments].
Qed.

Lemma merge_groups_by_attribute_values_witness :
  _merge_mpd_periods Samples.periods = Ok ([Samples.merged_video], []).
Proof.
  destruct (merge_groups_by_attribute_values Samples.periods)
    as ((subs & H) & _).
  - repeat constructor.
  - rewrite H. vm_compute in H. now injection H as <-.
Defined.

(** C3, as the specification states it, fails on two formats whose
    attributes other than [format_id] are [url = "x"] for the one and
    [manifest_url = "x"] for the other: the attribute sets differ, and
    the code merges the two into one format with the fragments of
    both. *)
Lemma formats_with_different_attribute_names_are_merged :
  lookup "url" (attrs Samples.by_url) = Some (VStr "x")
  /\ lookup "url" (attrs Samples.by_manifest_url) = None
  /\ _merge_mpd_periods
       [ {| formats := [Samples.by_url]; subtitles := [] |};
         {| formats := [Samples.by_manifest_url]; subtitles := [] |} ]
     = Ok ([ {| attrs := [ ("format_id", VStr "a"); ("url", VStr "x");
                           ("is_dash_periods", VBool true) ];
                fragments := Some [ [ ("path", VStr "a-1.m4s") ];
                                   [ ("path", VStr "b-1.m4s") ] ] |} ],
           []).
Proof. repeat split. Qed.

(** C2, as the code has it: every format that [_merge_mpd_periods]
    returns carries the mark [is_dash_periods], no two of them have the
    same key, and the merge is not applied twice: on a list of periods
    with a format that carries the mark, and so on the result of a
    merge given again as one period or as two, it fails with
    [AssertionError]. *)
Theorem merged_formats_are_not_merged_again (periods : list Period)
    (merged_formats : list Format) (subs : list (string * list dict)) :
  _merge_mpd_periods periods = Ok (merged_formats, subs) ->
  (forall f, In f merged_formats ->
     mem "is_dash_periods" (attrs f) = true)
  /\ NoDup (map format_key merged_formats)
  /\ (forall more,
        ~ Forall unprocessed (all_formats more) ->
        _merge_mpd_periods more = Raise AssertionError)
  /\ (merged_formats <> [] ->
      forall subs1 subs2,
        _merge_mpd_periods
          [ {| formats := merged_formats; subtitles := subs1 |} ]
        = Raise AssertionError
        /\ _merge_mpd_periods
             [ {| formats := merged_formats; subtitles := subs1 |};
               {| formats := merged_formats; subtitles := subs2 |} ]
           = Raise AssertionError).
Proof.
  intros Hok.
  pose proof (merge_periods_ok_inv periods _ Hok) as Hall.
  destruct (merge_periods_formats periods Hall) as (subs' & Hres).
  rewrite Hres in Hok. injection Hok as <- _.
  set (fs := map mark (all_formats periods)).
  assert (Hmarked : forall f,
            In f (map (fun k => merge_group (group k fs)) (first_keys fs)) ->
            mem "is_dash_periods" (attrs f) = true).
  { intros f Hin. apply in_map_iff in Hin. destruct Hin as (k & <- & Hk).
    apply first_keys_In in Hk. now apply merge_group_marked. }
  assert (Hreject : forall more,
            ~ Forall unprocessed (all_formats more) ->
            _merge_mpd_periods more = Raise AssertionError).
  { intros more Hnot. unfold _merge_mpd_periods.
    now rewrite (merge_periods_rejects more _ Hnot). }
  split; [exact Hmarked|]. split; [|split; [exact Hreject|]].
  - rewrite map_map.
    replace (map (fun k => format_key (merge_group (group k fs)))
               (first_keys fs))
      with (first_keys fs); [apply first_keys_NoDup|].
    rewrite <- (map_id (first_keys fs)) at 1. apply map_ext_in.
    intros k Hk. apply first_keys_In in Hk. symmetry.
    now apply merge_group_key.
  - intros Hne subs1 subs2.
    destruct (map (fun k => merge_group (group k fs)) (first_keys fs))
      as [|g rest] eqn:E; [congruence|].
    assert (Hg : ~ unprocessed g).
    { unfold unprocessed. rewrite (Hmarked g (or_introl eq_refl)).
      discriminate. }
    split; apply Hreject; cbn [all_formats flat_map formats app];
      intros H; inversion H; contradiction.
Qed.

Lemma merged_formats_are_not_merged_again_witness :
  _merge_mpd_periods
    [ {| formats := [Samples.merged_video]; subtitles := [] |};
      {| formats := [Samples.merged_video]; subtitles := [] |} ]
  = Raise AssertionError.
Proof.
  refine (proj2 (proj2 (proj2 (proj2
    (merged_formats_are_not_merged_again Samples.periods
       [Samples.merged_video] [] eq_refl))) _ [] [])).
  discriminate.
Defined.

(** C2, as the specification states it, fails: the result of the merge
    of two periods, merged with itself, is not the same set of formats
    but an [AssertionError]. *)
Lemma merge_of_merged_formats_raises :
  _merge_mpd_periods Samples.periods = Ok ([Samples.merged_video], [])
  /\ _merge_mpd_periods
       [ {| formats := [Samples.merged_video]; subtitles := [] |};
         {| formats := [Samples.merged_video]; subtitles := [] |} ]
     = Raise AssertionError
  /\ _merge_mpd_periods
       [ {| formats := [Samples.merged_video]; subtitles := [] |};
         {| formats := [Samples.merged_video]; subtitles := [] |} ]
     <> Ok ([Samples.merged_video], []).
Proof. repeat split. discriminate. Qed.

End MergeFacts.

(** ** DASH: templates *)

Module TemplateFacts.

Import Py DASH PyFacts.
Local Open Scope string_scope.

(** *** Strings *)











(** *** The doubling of ['%'] *)





(** *** Templates as literal text and placeholders *)

















(** *** Facts about the names and the texts *)






(** *** The first pass: the doubling *)





(** *** The substitutions *)

Section SubFacts.

Variable matcher : string -> option (string * nat).

Hypothesis matcher_needs_dollar :
  forall c rest, Ascii.eqb c "$" = false -> matcher (String c rest) = None.





End SubFacts.









(** *** The second and the third pass on a template *)








(** *** The [%] operator on a prepared template *)













End TemplateFacts.

(** ** Smooth Streaming *)

Module ISMFacts.

Import Py ISM.
Local Open Scope string_scope.

Section Facts.

Variable fragment_url : num -> string.
Variable duration : Z.
Variable stream_timescale : Z.

(** For a [c] element without [d] and without child elements, what
    stands after it in the stream is not read: the duration comes from
    [Duration]. *)
Lemma missing_duration_without_children (c : ctx) (index : nat)
    (stream_fragment : c_element) :
  c_children stream_fragment = [] ->
  c_d stream_fragment = None ->
  fragment_step fragment_url duration stream_timescale c
    (index, stream_fragment)
  = let time := match c_t stream_fragment with
                | Some t => if (t =? 0)%Z then time c else NInt t
                | None => time c
                end in
    let fragment_repeat := int_or (c_r stream_fragment) 1 in
    Ok (repeat_fragment fragment_url stream_timescale
          (Z.to_nat fragment_repeat)
          (num_div (num_sub (NInt duration) time) fragment_repeat)
          {| fragments := fragments c; time := time |}).
Proof.
  intros Hchildren Hd. unfold fragment_step. rewrite Hchildren, Hd.
  now destruct (index + 1)%nat.
Qed.

End Facts.

(** C7 on a stream of two [c] elements, the first without [d] and the
    second with [t = 20000000], in a manifest of [Duration] 40000000:
    the code reads the next time from the children of the first element,
    finds none, and takes [Duration], so the first fragment lasts four
    seconds; the rule of the specification takes the [t] of the second
    element and gives two seconds. *)
Lemma missing_duration_is_read_from_manifest_duration :
  track_fragments Samples.fragment_url 40000000 10000000
    Samples.stream_fragments
  = Ok [ [ ("url", VStr "QualityLevels(1000)/Fragments(video=0)");
           ("duration", VFloat 4) ];
         [ ("url", VStr "QualityLevels(1000)/Fragments(video=20000000)");
           ("duration", VFloat 2) ] ]
  /\ track_fragments_spec Samples.fragment_url 40000000 10000000
       Samples.stream_fragments
     = Ok [ [ ("url", VStr "QualityLevels(1000)/Fragments(video=0)");
              ("duration", VFloat 2) ];
            [ ("url", VStr "QualityLevels(1000)/Fragments(video=20000000)");
              ("duration", VFloat 2) ] ].
Proof.
  split; reflexivity.
Qed.

End ISMFacts.

(** ** SMIL *)

Module SMILFacts.

Import Py SMIL.
Local Open Scope string_scope.

(** The [src] of an element, empty when there is none. *)
Definition src_of (element : attrib) : string :=
  match aget "src" element with
  | Some src => src
  | None => ""
  end.

(** The elements that a loop with a seen-set lets through, in the words
    of the specification: those with a [src] that neither is in [srcs]
    nor is the [src] of an element let through before. *)
Fixpoint fresh (srcs : list string) (elements : list attrib) : list attrib :=
  match elements with
  | [] => []
  | element :: rest =>
      if (src_of element =? "") || seen (src_of element) srcs
      then fresh srcs rest
      else element :: fresh (srcs ++ [src_of element])%list rest
  end.

Lemma seen_In (src : string) (srcs : list string) :
  seen src srcs = true <-> In src srcs.
Proof.
  unfold seen. rewrite existsb_exists. split.
  - intros (x & Hin & E). apply String.eqb_eq in E. now subst.
  - intros Hin. exists src. split; [exact Hin | apply String.eqb_refl].
Qed.

Lemma fresh_srcs (elements : list attrib) (srcs : list string) :
  NoDup srcs -> NoDup (srcs ++ map src_of (fresh srcs elements))%list.
Proof.
  revert srcs. induction elements as [|e rest IH]; intros srcs Hnd.
  - simpl. now rewrite app_nil_r.
  - cbn [fresh].
    destruct ((src_of e =? "") || seen (src_of e) srcs) eqn:E.
    + now apply IH.
    + cbn [map].
      replace (srcs ++ src_of e
                 :: map src_of (fresh (srcs ++ [src_of e]) rest))%list
        with ((srcs ++ [src_of e])
              ++ map src_of (fresh (srcs ++ [src_of e]) rest))%list
        by now rewrite <- app_assoc.
      apply IH. apply orb_false_iff in E. destruct E as [_ E].
      apply NoDup_app; [exact Hnd | repeat constructor; intros [] |].
      intros x Hx [<-|[]]. apply seen_In in Hx. congruence.
Qed.

Lemma fresh_sublist (elements : list attrib) (srcs : list string) :
  incl (fresh srcs elements) elements.
Proof.
  revert srcs. induction elements as [|e rest IH]; intros srcs.
  - apply incl_refl.
  - cbn [fresh]. destruct ((src_of e =? "") || seen (src_of e) srcs).
    + apply incl_tl, IH.
    + apply incl_cons; [now left | apply incl_tl, IH].
Qed.

Section Facts.

Variable determine_ext_or_none : string -> option string.
Variable determine_ext : string -> string.
Variable head_request_ext : string -> option string.
Variable float_or_none : option string -> Z -> value.
Variable int_or_none : option string -> value.
Variable mimetype2ext : option string -> option string.
Variable urljoin : string -> string -> string.
Variable urlencode : list (string * string) -> string.
Variable format_d : value -> string.
Variable _is_valid_url : string -> bool.
Variable _extract_m3u8_formats_and_subtitles :
  string -> string -> list dict * subtitles_t.
Variable _extract_f4m_formats : string -> list dict.
Variable _extract_mpd_formats_and_subtitles : string -> list dict * subtitles_t.
Variable _extract_ism_formats_and_subtitles : string -> list dict * subtitles_t.
Variable smil_url : string.
Variable transform_rtmp_url : option (string -> string -> string * string).

Local Abbreviation dispatch_medium_of :=
  (dispatch_medium determine_ext_or_none head_request_ext float_or_none
     int_or_none urljoin urlencode format_d _is_valid_url
     _extract_m3u8_formats_and_subtitles _extract_f4m_formats
     _extract_mpd_formats_and_subtitles _extract_ism_formats_and_subtitles
     transform_rtmp_url).

Local Abbreviation medium_step_of :=
  (medium_step determine_ext_or_none head_request_ext float_or_none
     int_or_none urljoin urlencode format_d _is_valid_url
     _extract_m3u8_formats_and_subtitles _extract_f4m_formats
     _extract_mpd_formats_and_subtitles _extract_ism_formats_and_subtitles
     transform_rtmp_url).

(** The dispatch of an element that passed the test of the seen-set. *)
Definition process_medium (base : string) (st : state) (medium : attrib)
  : state :=
  dispatch_medium_of base (add_src (src_of medium) st) medium (src_of medium).

Definition process_imagestream (st : state) (medium : attrib) : state :=
  dispatch_imagestream int_or_none mimetype2ext (add_src (src_of medium) st)
    medium (src_of medium).

Definition process_textstream (subs : subtitles_t) (textstream : attrib)
  : subtitles_t :=
  add_textstream determine_ext mimetype2ext "en" subs textstream
    (src_of textstream).

Lemma dispatch_medium_srcs (base : string) (st : state) (medium : attrib)
    (src : string) :
  srcs (dispatch_medium_of base st medium src) = srcs st.
Proof.
  unfold dispatch_medium.
  repeat match goal with
         | |- context [if ?c then _ else _] => destruct c
         | |- context [match ?x with _ => _ end] => destruct x
         end; reflexivity.
Qed.

Lemma add_src_srcs (src : string) (st : state) :
  seen src (srcs st) = false ->
  srcs (add_src src st) = (srcs st ++ [src])%list.
Proof. intros H. unfold add_src. simpl. now rewrite H. Qed.

Lemma medium_step_src_of (base : string) (st : state) (medium : attrib) :
  medium_step_of base st medium
  = if (src_of medium =? "") || seen (src_of medium) (srcs st) then st
    else process_medium base st medium.
Proof.
  unfold medium_step, process_medium, src_of.
  destruct (aget "src" medium); reflexivity.
Qed.

Lemma imagestream_step_src_of (st : state) (medium : attrib) :
  imagestream_step int_or_none mimetype2ext st medium
  = if (src_of medium =? "") || seen (src_of medium) (srcs st) then st
    else process_imagestream st medium.
Proof.
  unfold imagestream_step, process_imagestream, src_of.
  destruct (aget "src" medium); reflexivity.
Qed.

Lemma textstream_step_src_of (urls : list string) (subs : subtitles_t)
    (textstream : attrib) :
  textstream_step determine_ext mimetype2ext "en" (urls, subs) textstream
  = if (src_of textstream =? "") || seen (src_of textstream) urls
    then (urls, subs)
    else ((urls ++ [src_of textstream])%list,
          process_textstream subs textstream).
Proof.
  unfold textstream_step, process_textstream, src_of.
  destruct (aget "src" textstream); reflexivity.
Qed.

Lemma process_medium_srcs (base : string) (st : state) (medium : attrib) :
  seen (src_of medium) (srcs st) = false ->
  srcs (process_medium base st medium) = (srcs st ++ [src_of medium])%list.
Proof.
  intros H. unfold process_medium.
  now rewrite dispatch_medium_srcs, add_src_srcs.
Qed.

Lemma process_imagestream_srcs (st : state) (medium : attrib) :
  seen (src_of medium) (srcs st) = false ->
  srcs (process_imagestream st medium) = (srcs st ++ [src_of medium])%list.
Proof.
  intros H. unfold process_imagestream, dispatch_imagestream. cbn [srcs].
  now apply add_src_srcs.
Qed.

Lemma media_loop (base : string) (media : list attrib) (st : state) :
  fold_left (medium_step_of base) media st
  = fold_left (process_medium base) (fresh (srcs st) media) st
  /\ srcs (fold_left (medium_step_of base) media st)
     = (srcs st ++ map src_of (fresh (srcs st) media))%list.
Proof.
  revert st. induction media as [|e rest IH]; intros st.
  - simpl. now rewrite app_nil_r.
  - cbn [fold_left fresh]. rewrite medium_step_src_of.
    destruct ((src_of e =? "") || seen (src_of e) (srcs st)) eqn:E.
    + apply IH.
    + apply orb_false_iff in E. destruct E as [_ Eseen].
      cbn [fold_left map].
      destruct (IH (process_medium base st e)) as [IH1 IH2].
      rewrite (process_medium_srcs _ _ _ Eseen) in IH1, IH2.
      split; [exact IH1|]. rewrite IH2. now rewrite <- app_assoc.
Qed.

Lemma imagestream_loop (images : list attrib) (st : state) :
  fold_left (imagestream_step int_or_none mimetype2ext) images st
  = fold_left process_imagestream (fresh (srcs st) images) st.
Proof.
  revert st. induction images as [|e rest IH]; intros st.
  - reflexivity.
  - cbn [fold_left fresh]. rewrite imagestream_step_src_of.
    destruct ((src_of e =? "") || seen (src_of e) (srcs st)) eqn:E.
    + apply IH.
    + apply orb_false_iff in E. destruct E as [_ Eseen].
      cbn [fold_left]. rewrite IH.
      now rewrite (process_imagestream_srcs _ _ Eseen).
Qed.

Lemma textstream_loop (textstreams : list attrib) (urls : list string)
    (subs : subtitles_t) :
  snd (fold_left (textstream_step determine_ext mimetype2ext "en")
         textstreams (urls, subs))
  = fold_left process_textstream (fresh urls textstreams) subs.
Proof.
  revert urls subs. induction textstreams as [|e rest IH]; intros urls subs.
  - reflexivity.
  - cbn [fold_left fresh]. rewrite textstream_step_src_of.
    destruct ((src_of e =? "") || seen (src_of e) urls) eqn:E.
    + apply IH.
    + cbn [fold_left]. apply IH.
Qed.

(** C8, as the code has it: the loops over the [video], [audio] and
    [media] elements and over the [imagestream] elements share one
    seen-set, and dispatch exactly the elements with a [src] not met
    before in these two loops; the loop over the [textstream] elements
    has a seen-list of its own and dispatches the elements with a [src]
    not met before among the text streams.  Within each of the two
    groups no [src] is dispatched twice. *)
Theorem each_src_is_dispatched_once_per_group (smil : Smil)
    (params : list (string * string)) :
  let base := base_of smil_url (metas smil) in
  let media := (videos smil ++ audios smil ++ medias smil)%list in
  let kept_media := fresh [] media in
  let kept_images := fresh (map src_of kept_media) (imagestreams smil) in
  let kept_text := fresh [] (textstreams smil) in
  media_and_images determine_ext_or_none head_request_ext float_or_none
    int_or_none mimetype2ext urljoin urlencode format_d _is_valid_url
    _extract_m3u8_formats_and_subtitles _extract_f4m_formats
    _extract_mpd_formats_and_subtitles _extract_ism_formats_and_subtitles
    smil_url transform_rtmp_url smil params
  = fold_left process_imagestream kept_images
      (fold_left (process_medium base) kept_media (initial_state params))
  /\ _parse_smil_subtitles determine_ext mimetype2ext smil "en"
     = fold_left process_textstream kept_text []
  /\ NoDup (map src_of (kept_media ++ kept_images)%list)
  /\ NoDup (map src_of kept_text)
  /\ incl kept_media media
  /\ incl kept_images (imagestreams smil)
  /\ incl kept_text (textstreams smil).
Proof.
  intros base media kept_media kept_images kept_text.
  destruct (media_loop base media (initial_state params)) as [Hm Hs].
  cbn [srcs initial_state app] in Hm, Hs.
  repeat split.
  - unfold media_and_images. fold base. fold media.
    rewrite imagestream_loop, Hs, Hm. reflexivity.
  - unfold _parse_smil_subtitles. apply textstream_loop.
  - rewrite map_app. unfold kept_images. apply fresh_srcs.
    unfold kept_media.
    exact (fresh_srcs media [] (NoDup_nil _)).
  - exact (fresh_srcs (textstreams smil) [] (NoDup_nil _)).
  - apply fresh_sublist.
  - apply fresh_sublist.
  - apply fresh_sublist.
Qed.

End Facts.

(** C8, as the specification states it, fails on a document in which an
    [imagestream] and a [textstream] have the same [src]: the text stream
    is not skipped, and the [src] gives both a format and a subtitle
    track. *)
Lemma src_of_imagestream_and_textstream_is_dispatched_twice :
  Samples.parse_smil Samples.smil
  = ( [ [ ("format_id", VStr "imagestream-1");
          ("url", VStr "http://example.com/track.vtt");
          ("ext", VNone); ("acodec", VStr "none"); ("vcodec", VStr "none");
          ("width", VNone); ("height", VNone);
          ("format_note", VStr "SMIL storyboards") ] ],
      [ ("fr", [ [ ("url", VStr "http://example.com/track.vtt");
                   ("ext", VStr "vtt") ] ]) ] ).
Proof. reflexivity. Qed.

End SMILFacts.
